(** * ReactGoogleReviews: data acquisition and render orchestration

    A shallow embedding of
    [src/components/ReactGoogleReviews/ReactGoogleReviews.tsx]: the
    parameter validation, the six [useState] cells, the [useEffect] that
    fetches the widget, the promise chain that consumes the response, the
    render dispatch and the JSON-LD template. *)

From Stdlib Require Import Bool List String Ascii ZArith QArith Lia.
From Stdlib Require Import DecimalString.
Import ListNotations.

Local Open Scope string_scope.

(** ** JavaScript values *)

(** A JavaScript [number]: every finite double is a rational, so finite
    values are carried as [Q] (a superset of the doubles on which order and
    integrality agree with IEEE 754); the three non-finite values are kept
    apart because comparisons and [Number.isInteger] treat them specially. *)
Inductive number : Type :=
| Finite (q : Q)
| PosInfinity
| NegInfinity
| NaN.

Definition Qltb (a b : Q) : bool :=
  match (a ?= b)%Q with Lt => true | _ => false end.

(** [x < y] on numbers: false as soon as one side is [NaN]. *)
Definition number_lt (x y : number) : bool :=
  match x, y with
  | NaN, _ | _, NaN => false
  | Finite a, Finite b => Qltb a b
  | NegInfinity, NegInfinity => false
  | NegInfinity, _ => true
  | _, NegInfinity => false
  | PosInfinity, _ => false
  | Finite _, PosInfinity => true
  end.

(** [x > y] is [y < x]. *)
Definition number_gt (x y : number) : bool := number_lt y x.

(** [Number.isInteger]: false on [NaN] and the infinities. *)
Definition Number_isInteger (x : number) : bool :=
  match x with
  | Finite q => (Qnum q mod Z.pos (Qden q) =? 0)%Z
  | _ => false
  end.

Definition num (z : Z) : number := Finite (inject_Z z).

(** [if (s)] on an optional string: [undefined] and the empty string are
    falsy. *)
Definition truthy (s : option string) : bool :=
  match s with
  | None => false
  | Some EmptyString => false
  | Some (String _ _) => true
  end.

(** [a ?? b]. *)
Definition nullish {A : Type} (a : option A) (b : A) : A :=
  match a with Some v => v | None => b end.

(** What a state cell or a property of a parsed body holds at run time: a
    value, [null], or [undefined] (a property the body does not have reads
    as [undefined]). *)
Inductive maybe (A : Type) : Type :=
| undefined
| null
| just (a : A).
Arguments undefined {A}.
Arguments null {A}.
Arguments just {A} a.

(** [a ?? null], for an optional property [a]. *)
Definition or_null {A : Type} (a : option A) : maybe A :=
  match a with Some v => just v | None => null end.

(** ** Reviews and the widget response *)

(** Modelled from the spec: the declarations of [types/review]
    ([GoogleReview], [FeaturableAPIResponse] and the display enumerations)
    are not among the sources.  The review record is the one of the spec's
    external interfaces: reviewer (display name, anonymity flag), comment,
    creation time, star rating. *)
Record Reviewer : Type := mkReviewer {
  displayName : string;
  isAnonymous : bool
}.

Record GoogleReview : Type := mkReview {
  reviewer : Reviewer;
  comment : string;
  createTime : string;
  starRating : number
}.

(** Modelled from the spec: the body of the widget endpoint,
    [{ success, reviews, profileUrl, totalReviewCount, averageRating }] on
    success and [{ success: false }] otherwise.  Nothing checks the body
    once it is parsed, so each of the three scalar properties is what the
    JSON made it: a value, [null], or [undefined] when the body omits it.
    [reviews] is the array the type of its setter demands. *)
Module data.
Inductive t : Type :=
| failure
| ok (reviews : list GoogleReview) (profileUrl : maybe string)
     (totalReviewCount averageRating : maybe number).

Definition success (d : t) : bool :=
  match d with failure => false | ok _ _ _ _ => true end.
End data.

(** ** What the component renders *)

Record CarouselProps : Type := mkCarouselProps {
  carousel_reviews : list GoogleReview;
  carousel_maxCharacters : option number;
  carousel_nameDisplay : option string;
  carousel_logoVariant : option string;
  carousel_dateDisplay : option string;
  carousel_reviewVariant : option string;
  carousel_carouselSpeed : option number;
  carousel_carouselAutoplay : option bool;
  carousel_maxItems : option number;
  carousel_theme : option string;
  carousel_accessibility : option bool
}.

Record BadgeProps : Type := mkBadgeProps {
  badge_averageRating : maybe number;
  badge_totalReviewCount : maybe number;
  badge_profileUrl : maybe string;
  badge_theme : option string
}.

(** React nodes, as far as this component builds them.  [nothing] is a
    child that renders nothing ([false], [null] or [undefined], what
    [cond && <X />] leaves when [cond] is falsy); [foreign] stands for
    elements of the caller's own, which only a custom renderer returns. *)
#[warnings="-register-all"] Inductive ReactNode : Type :=
| nothing
| LoadingState
| ErrorState
| script_ld_json (body : string)
| Carousel (p : CarouselProps)
| Badge (p : BadgeProps)
| foreign (markup : string)
| div (children : list ReactNode).

(** ** Props *)

Inductive Layout : Type := carousel | badge | custom.

Module props.
(** [reviews] and [featurableId] exclude each other
    ([featurableId?: never] / [reviews?: never]). *)
Inductive source : Type :=
| with_reviews (reviews : list GoogleReview)
| with_featurableId (featurableId : string).

(** The members of the union on [layout], each with its own fields. *)
Inductive variant : Type :=
| carousel_props (carouselSpeed : option number)
                 (carouselAutoplay : option bool)
                 (maxItems : option number)
| badge_props (profileUrl : option string)
| custom_props (renderer : list GoogleReview -> ReactNode).

Record t : Type := mk {
  src : source;
  var : variant;
  nameDisplay : option string;
  logoVariant : option string;
  maxCharacters : option number;
  dateDisplay : option string;
  reviewVariant : option string;
  theme : option string;
  structuredData : option bool;
  brandName : option string;
  productName : option string;
  productDescription : option string;
  accessibility : option bool;
  totalReviewCount : option number;
  averageRating : option number
}.

Definition layout (p : t) : Layout :=
  match var p with
  | carousel_props _ _ _ => carousel
  | badge_props _ => badge
  | custom_props _ => custom
  end.

Definition reviews (p : t) : option (list GoogleReview) :=
  match src p with with_reviews r => Some r | with_featurableId _ => None end.

Definition featurableId (p : t) : option string :=
  match src p with with_reviews _ => None | with_featurableId i => Some i end.

Definition profileUrl (p : t) : option string :=
  match var p with badge_props u => u | _ => None end.

Definition carouselSpeed (p : t) : option number :=
  match var p with carousel_props s _ _ => s | _ => None end.

Definition carouselAutoplay (p : t) : option bool :=
  match var p with carousel_props _ a _ => a | _ => None end.

Definition maxItems (p : t) : option number :=
  match var p with carousel_props _ _ m => m | _ => None end.
End props.

(** ** Throwing *)

Inductive Error : Type := mkError (message : string).

Inductive completion (A : Type) : Type :=
| Normal (a : A)
| Throw (e : Error).
Arguments Normal {A} a.
Arguments Throw {A} e.

(** The two guards at the head of the component (lines 204-218). *)
Definition validate (p : props.t) : option Error :=
  if match props.totalReviewCount p with
     | Some n => number_lt n (num 0) || negb (Number_isInteger n)
     | None => false
     end
  then Some (mkError "totalReviewCount must be a positive integer")
  else
    if match props.averageRating p with
       | Some r => number_lt r (num 1) || number_gt r (num 5)
       | None => false
       end
    then Some (mkError "averageRating must be between 1 and 5")
    else None.

(** ** The hosting page *)

(** What the component reads from its environment: the conversion of a
    number to a string that a template literal applies, [document.title]
    and [document.location.href]. *)
Record Host : Type := mkHost {
  number_to_string : number -> string;
  document_title : string;
  document_location_href : string
}.

(** ** The state cells *)

(** The three nullable cells are declared [string | null] and
    [number | null]; a setter stores whatever it is given, so at run time
    they hold a value, [null] or [undefined]. *)
Record State : Type := mkState {
  reviews : list GoogleReview;
  loading : bool;
  error : bool;
  profileUrl : maybe string;
  totalReviewCount : maybe number;
  averageRating : maybe number
}.

Definition setReviews (v : list GoogleReview) (s : State) : State :=
  mkState v (loading s) (error s) (profileUrl s) (totalReviewCount s)
          (averageRating s).
Definition setLoading (v : bool) (s : State) : State :=
  mkState (reviews s) v (error s) (profileUrl s) (totalReviewCount s)
          (averageRating s).
Definition setError (v : bool) (s : State) : State :=
  mkState (reviews s) (loading s) v (profileUrl s) (totalReviewCount s)
          (averageRating s).
Definition setProfileUrl (v : maybe string) (s : State) : State :=
  mkState (reviews s) (loading s) (error s) v (totalReviewCount s)
          (averageRating s).
Definition setTotalReviewCount (v : maybe number) (s : State) : State :=
  mkState (reviews s) (loading s) (error s) (profileUrl s) v
          (averageRating s).
Definition setAverageRating (v : maybe number) (s : State) : State :=
  mkState (reviews s) (loading s) (error s) (profileUrl s)
          (totalReviewCount s) v.

(** [useState(init)]: the initial value on the first render, the stored
    one on every later render. *)
Definition useState {A : Type} (cell : option A) (init : A) : A :=
  match cell with Some v => v | None => init end.

(** The six [useState] calls (lines 220-233); [cells] is [None] on the
    first render of an instance. *)
Definition use_states (p : props.t) (cells : option State) : State :=
  {| reviews := useState (option_map reviews cells)
                         (nullish (props.reviews p) []);
     loading := useState (option_map loading cells) true;
     error := useState (option_map error cells) false;
     profileUrl := useState (option_map profileUrl cells)
                            (match props.layout p with
                             | badge => or_null (props.profileUrl p)
                             | _ => null
                             end);
     totalReviewCount := useState (option_map totalReviewCount cells)
                                  (or_null (props.totalReviewCount p));
     averageRating := useState (option_map averageRating cells)
                               (or_null (props.averageRating p)) |}.

(** ** The JSON-LD template (lines 281-311) *)

(** The double quote and the line feed, by their character codes. *)
Definition dq : string := String (ascii_of_nat 34) EmptyString.
Definition nl : string := String (ascii_of_nat 10) EmptyString.

(** A quoted constant of the template, such as the key [@type]. *)
Definition lit (s : string) : string := dq ++ s ++ dq.

(** The reviews the document lists: [.filter((r) => !!r.reviewer.isAnonymous)]
    then [.slice(0, 10)]. *)
Definition listed_reviews (rs : list GoogleReview) : list GoogleReview :=
  firstn 10 (filter (fun r => negb (negb (isAnonymous (reviewer r)))) rs).

(** The entry of one review (lines 302-308), cut at its three string
    values.  Each [after_] piece starts right after the quote that closes
    the value. *)
Definition after_displayName (h : Host) (review : GoogleReview) : string :=
  " }," ++ nl ++
  "            " ++ lit "reviewRating" ++ ": { " ++ lit "@type" ++ ": "
    ++ lit "Rating" ++ ", " ++ lit "ratingValue" ++ ": "
    ++ number_to_string h (starRating review) ++ " }" ++ nl ++
  "        }".

Definition after_createTime (h : Host) (review : GoogleReview) : string :=
  "," ++ nl ++
  "            " ++ lit "author" ++ ": { " ++ lit "@type" ++ ": "
    ++ lit "Person" ++ ", " ++ lit "name" ++ ": " ++ dq
    ++ displayName (reviewer review) ++ dq ++ after_displayName h review.

Definition after_comment (h : Host) (review : GoogleReview) : string :=
  "," ++ nl ++
  "            " ++ lit "datePublished" ++ ": " ++ dq ++ createTime review
    ++ dq ++ after_createTime h review.

(** The entry up to and including the quote that opens the comment. *)
Definition before_comment : string :=
  "{" ++ nl ++
  "            " ++ lit "@type" ++ ": " ++ lit "Review" ++ "," ++ nl ++
  "            " ++ lit "reviewBody" ++ ": " ++ dq.

(** The inner template: every value is interpolated as it is. *)
Definition review_entry (h : Host) (review : GoogleReview) : string :=
  before_comment ++ comment review ++ dq ++ after_comment h review.

(** An array interpolated into a template literal is joined with commas. *)
Definition review_list (h : Host) (rs : list GoogleReview) : string :=
  String.concat "," (map (review_entry h) (listed_reviews rs)).

(** A nullable number interpolated into a template literal. *)
Definition interpolate (h : Host) (v : maybe number) : string :=
  match v with
  | undefined => "undefined"
  | null => "null"
  | just n => number_to_string h n
  end.

(** The outer template, over the two aggregate cells. *)
Definition structured_data (h : Host) (p : props.t)
    (averageRating totalReviewCount : maybe number)
    (reviews : list GoogleReview) : string :=
  "{" ++ nl ++
  "    " ++ lit "@context" ++ ": " ++ lit "https://schema.org" ++ "," ++ nl ++
  "    " ++ lit "@type" ++ ": " ++ lit "Product" ++ "," ++ nl ++
  "    " ++ lit "name" ++ ": " ++ dq
    ++ nullish (props.productName p) (document_title h) ++ dq ++ "," ++ nl ++
  "    " ++ lit "url" ++ ": " ++ dq ++ document_location_href h ++ dq
    ++ "," ++ nl ++
  "    " ++ lit "brand" ++ ": { " ++ lit "@type" ++ ": " ++ lit "Brand"
    ++ ", " ++ lit "name" ++ ": " ++ dq
    ++ nullish (props.brandName p) (document_title h) ++ dq ++ " }," ++ nl ++
  "    " ++ lit "description" ++ ": " ++ dq
    ++ nullish (props.productDescription p) EmptyString ++ dq ++ "," ++ nl ++
  "    " ++ lit "image" ++ ": []," ++ nl ++
  "    " ++ lit "aggregateRating" ++ ": {" ++ nl ++
  "        " ++ lit "@type" ++ ": " ++ lit "AggregateRating" ++ "," ++ nl ++
  "        " ++ lit "ratingValue" ++ ": " ++ interpolate h averageRating
    ++ "," ++ nl ++
  "        " ++ lit "reviewCount" ++ ": "
    ++ interpolate h totalReviewCount ++ "," ++ nl ++
  "        " ++ lit "bestRating" ++ ": 5," ++ nl ++
  "        " ++ lit "worstRating" ++ ": 1" ++ nl ++
  "    }," ++ nl ++
  "    " ++ lit "review" ++ ": [" ++ review_list h reviews ++ "]" ++ nl ++
  "}" ++ nl.

(** ** The render dispatch (lines 263-342) *)

(** [a === null]: [undefined] is not [null]. *)
Definition is_null {A : Type} (a : maybe A) : bool :=
  match a with null => true | _ => false end.

Definition Layout_eqb (a b : Layout) : bool :=
  match a, b with
  | carousel, carousel | badge, badge | custom, custom => true
  | _, _ => false
  end.

(** [props.structuredData && averageRating !== null &&
    totalReviewCount !== null && <script ...>]. *)
Definition structured_data_block (h : Host) (p : props.t) (s : State)
    : ReactNode :=
  match props.structuredData p with
  | Some true =>
      if negb (is_null (averageRating s))
         && negb (is_null (totalReviewCount s))
      then script_ld_json
             (structured_data h p (averageRating s) (totalReviewCount s)
                              (reviews s))
      else nothing
  | _ => nothing
  end.

Definition carousel_block (p : props.t) (s : State) : ReactNode :=
  if Layout_eqb (props.layout p) carousel then
    Carousel {| carousel_reviews := reviews s;
                carousel_maxCharacters := props.maxCharacters p;
                carousel_nameDisplay := props.nameDisplay p;
                carousel_logoVariant := props.logoVariant p;
                carousel_dateDisplay := props.dateDisplay p;
                carousel_reviewVariant := props.reviewVariant p;
                carousel_carouselSpeed := props.carouselSpeed p;
                carousel_carouselAutoplay := props.carouselAutoplay p;
                carousel_maxItems := props.maxItems p;
                carousel_theme := props.theme p;
                carousel_accessibility := props.accessibility p |}
  else nothing.

Definition badge_block (p : props.t) (s : State) : ReactNode :=
  if Layout_eqb (props.layout p) badge then
    Badge {| badge_averageRating := averageRating s;
             badge_totalReviewCount := totalReviewCount s;
             badge_profileUrl := profileUrl s;
             badge_theme := props.theme p |}
  else nothing.

(** [props.layout === "custom" && props.renderer(reviews)]. *)
Definition custom_block (p : props.t) (s : State) : ReactNode :=
  match props.var p with
  | props.custom_props renderer => renderer (reviews s)
  | _ => nothing
  end.

Definition dispatch (h : Host) (p : props.t) (s : State) : ReactNode :=
  if loading s then LoadingState
  else if error s
          || (Layout_eqb (props.layout p) badge
              && (is_null (averageRating s) || is_null (totalReviewCount s)))
  then ErrorState
  else div [ structured_data_block h p s;
             carousel_block p s;
             badge_block p s;
             custom_block p s ].

(** ** The component *)

(** One call of the function component: the guards, the state cells, the
    dispatch.  The effect is not run by the call; React runs it after the
    render is committed. *)
Definition ReactGoogleReviews (h : Host) (p : props.t) (cells : option State)
    : completion (State * ReactNode) :=
  match validate p with
  | Some e => Throw e
  | None =>
      let s := use_states p cells in
      Normal (s, dispatch h p s)
  end.

Definition endpoint (featurableId : string) : string :=
  "https://featurable.com/api/v1/widgets/" ++ featurableId.

(** The body of the effect (lines 236-260): the new cells and the GET
    requests it issues. *)
Definition effect (p : props.t) (s : State) : State * list string :=
  if truthy (props.featurableId p)
  then (s, [endpoint (nullish (props.featurableId p) EmptyString)])
  else (setLoading false s, []).

(** How a fetch ends: the promise of [fetch] rejects, the body is not
    JSON (the promise of [res.json()] rejects), or a body is parsed. *)
Inductive fetch_outcome : Type :=
| rejected
| unparsable
| parsed (d : data.t).

(** [.then((res) => res.json())]: [None] is a rejected promise. *)
Definition res_json (o : fetch_outcome) : option data.t :=
  match o with
  | rejected | unparsable => None
  | parsed d => Some d
  end.

(** [.then((data) => { ... })] (lines 244-253). *)
Definition on_data (d : data.t) (s : State) : State :=
  if negb (data.success d) then setError true s
  else
    match d with
    | data.ok r u n a =>
        setAverageRating a
          (setTotalReviewCount n
             (setProfileUrl u
                (setReviews r s)))
    | data.failure => s
    end.

(** [.catch(() => { setError(true) })]. *)
Definition on_catch (s : State) : State := setError true s.

(** [.finally(() => setLoading(false))]. *)
Definition on_finally (s : State) : State := setLoading false s.

(** The whole chain, run on the cells when the fetch settles. *)
Definition settle_cells (o : fetch_outcome) (s : State) : State :=
  on_finally
    (match res_json o with
     | Some d => on_data d s
     | None => on_catch s
     end).

(** ** A mounted instance *)

(** What React keeps for one mounted instance, and what is in the air: the
    props of the last render, the state cells, the dependency array of the
    effect as it last ran ([[props.featurableId]]), the responses still
    awaited (oldest first, by URL) and the log of every GET issued. *)
Record Instance : Type := mkInstance {
  current_props : props.t;
  cells : State;
  deps : option string;
  in_flight : list string;
  requests : list string
}.

(** [Object.is] on the only dependency. *)
Definition same_deps (a b : option string) : bool :=
  match a, b with
  | None, None => true
  | Some x, Some y => String.eqb x y
  | _, _ => false
  end.

(** First render, commit, then the effect. *)
Definition mount (h : Host) (p : props.t) : completion Instance :=
  match ReactGoogleReviews h p None with
  | Throw e => Throw e
  | Normal (s, _) =>
      let (s', gets) := effect p s in
      Normal {| current_props := p;
                cells := s';
                deps := props.featurableId p;
                in_flight := gets;
                requests := gets |}
  end.

(** A render with new props; the effect runs again only when its
    dependency changed. *)
Definition update (h : Host) (p : props.t) (i : Instance)
    : completion Instance :=
  match ReactGoogleReviews h p (Some (cells i)) with
  | Throw e => Throw e
  | Normal (s, _) =>
      if same_deps (deps i) (props.featurableId p)
      then Normal {| current_props := p;
                     cells := s;
                     deps := deps i;
                     in_flight := in_flight i;
                     requests := requests i |}
      else
        let (s', gets) := effect p s in
        Normal {| current_props := p;
                  cells := s';
                  deps := props.featurableId p;
                  in_flight := in_flight i ++ gets;
                  requests := requests i ++ gets |}
  end.

Fixpoint remove_nth {A : Type} (k : nat) (l : list A) : list A :=
  match k, l with
  | _, [] => []
  | O, _ :: l' => l'
  | S k', x :: l' => x :: remove_nth k' l'
  end.

(** The [k]-th awaited response arrives with outcome [o]; [None] when
    there is no such request. *)
Definition settle (k : nat) (o : fetch_outcome) (i : Instance)
    : option Instance :=
  match nth_error (in_flight i) k with
  | None => None
  | Some _ =>
      Some {| current_props := current_props i;
              cells := settle_cells o (cells i);
              deps := deps i;
              in_flight := remove_nth k (in_flight i);
              requests := requests i |}
  end.

(** What the instance shows: the component called on the current props
    and cells. *)
Definition view (h : Host) (i : Instance) : completion ReactNode :=
  match ReactGoogleReviews h (current_props i) (Some (cells i)) with
  | Throw e => Throw e
  | Normal (_, out) => Normal out
  end.

(** What the very first render returns, before any effect has run. *)
Definition first_render (h : Host) (p : props.t) : completion ReactNode :=
  match ReactGoogleReviews h p None with
  | Throw e => Throw e
  | Normal (_, out) => Normal out
  end.

(** ** Lifecycle states, as the spec names them *)

Module Lifecycle.
Inductive t : Type := Loading | Error | Ready.
End Lifecycle.

(** The lifecycle state the two flags encode: [loading] is tested first,
    then [error]. *)
Definition lifecycle (s : State) : Lifecycle.t :=
  if loading s then Lifecycle.Loading
  else if error s then Lifecycle.Error
  else Lifecycle.Ready.

(** Supplied mode and remote mode, by the test the effect applies. *)
Definition supplied_mode (p : props.t) (R : list GoogleReview) : Prop :=
  props.src p = props.with_reviews R.

Definition remote_mode (p : props.t) : Prop :=
  truthy (props.featurableId p) = true.

(** ** The vocabulary of the specification *)

(** A number below zero. *)
Definition negative (n : number) : Prop :=
  match n with
  | Finite q => (q < 0)%Q
  | NegInfinity => True
  | PosInfinity | NaN => False
  end.

(** A number that is an integer. *)
Definition is_integer (n : number) : Prop :=
  match n with
  | Finite q => exists z : Z, (q == inject_Z z)%Q
  | _ => False
  end.

(** A number in the inclusive range from 1 to 5.  [NaN] and the
    infinities are not in it. *)
Definition in_range_1_5 (n : number) : Prop :=
  match n with
  | Finite q => (1 <= q)%Q /\ (q <= 5)%Q
  | PosInfinity | NegInfinity | NaN => False
  end.

(** The configurations the spec has rejected: a supplied count that is
    negative or not an integer, or a supplied rating outside the inclusive
    range from 1 to 5. *)
Definition invalid_parameter (p : props.t) : Prop :=
  (exists n, props.totalReviewCount p = Some n
             /\ (negative n \/ ~ is_integer n))
  \/ (exists r, props.averageRating p = Some r /\ ~ in_range_1_5 r).

(** A number that compares below 1 or above 5.  [NaN] compares neither
    way. *)
Definition below_1_or_above_5 (n : number) : Prop :=
  match n with
  | Finite q => (q < 1)%Q \/ (5 < q)%Q
  | PosInfinity | NegInfinity => True
  | NaN => False
  end.

(** The configurations on which one of the two guards fires. *)
Definition rejected_parameter (p : props.t) : Prop :=
  (exists n, props.totalReviewCount p = Some n
             /\ (negative n \/ ~ is_integer n))
  \/ (exists r, props.averageRating p = Some r /\ below_1_or_above_5 r).

(** The instances a host can observe: mounted, then re-rendered with new
    props or reached by a response, in any order. *)
Inductive reachable (h : Host) : Instance -> Prop :=
| reach_mount p i :
    mount h p = Normal i -> reachable h i
| reach_update p i i' :
    reachable h i -> update h p i = Normal i' -> reachable h i'
| reach_settle k o i i' :
    reachable h i -> settle k o i = Some i' -> reachable h i'.

(** A request is stale when it is not the one for the current identifier. *)
Definition stale (i : Instance) (url : string) : Prop :=
  Some url <> option_map endpoint (props.featurableId (current_props i)).

(** Stale responses are dropped: the cells do not change when one arrives. *)
Definition stale_suppressed (i : Instance) : Prop :=
  forall k url o i',
    nth_error (in_flight i) k = Some url ->
    stale i url ->
    settle k o i = Some i' ->
    cells i' = cells i.

(** The three ways an acquisition fails: the fetch rejects, the body does
    not parse, the body carries [success: false]. *)
Definition acquisition_failure (o : fetch_outcome) : Prop :=
  o = rejected \/ o = unparsable \/ o = parsed data.failure.

(** *** Reading a JSON string back *)

Definition is_quote (c : ascii) : bool := Ascii.eqb c (ascii_of_nat 34).
Definition is_backslash (c : ascii) : bool := Ascii.eqb c (ascii_of_nat 92).

(** The control characters, U+0000 to U+001F, which JSON does not allow
    inside a string unless escaped. *)
Definition is_control (c : ascii) : bool := Nat.ltb (nat_of_ascii c) 32.

(** The characters that may follow a backslash on their own: quote,
    backslash, slash, b, f, n, r, t. *)
Definition is_simple_escape (c : ascii) : bool :=
  let n := nat_of_ascii c in
  Nat.eqb n 34 || Nat.eqb n 92 || Nat.eqb n 47 || Nat.eqb n 98
  || Nat.eqb n 102 || Nat.eqb n 110 || Nat.eqb n 114 || Nat.eqb n 116.

Definition is_u (c : ascii) : bool := Nat.eqb (nat_of_ascii c) 117.

Definition is_hex (c : ascii) : bool :=
  let n := nat_of_ascii c in
  (Nat.leb 48 n && Nat.leb n 57)
  || (Nat.leb 65 n && Nat.leb n 70)
  || (Nat.leb 97 n && Nat.leb n 102).

(** A JSON string value read from just after its opening quote, by the
    grammar of RFC 8259: the raw text up to the closing quote and what
    follows that quote.  A backslash must start one of the escapes of the
    grammar (the eight simple ones, or [u] and four hexadecimal digits).
    [None] when the text is not a string value: it never ends, holds a raw
    control character, or holds a backslash that starts no escape. *)
Fixpoint json_string_body (s : string) : option (string * string) :=
  match s with
  | EmptyString => None
  | String c rest =>
      if is_control c then None
      else if is_quote c then Some (EmptyString, rest)
      else if is_backslash c then
        match rest with
        | EmptyString => None
        | String e rest1 =>
            if is_simple_escape e then
              match json_string_body rest1 with
              | Some (body, tail) => Some (String c (String e body), tail)
              | None => None
              end
            else if is_u e then
              match rest1 with
              | String h1 (String h2 (String h3 (String h4 rest2))) =>
                  if is_hex h1 && is_hex h2 && is_hex h3 && is_hex h4 then
                    match json_string_body rest2 with
                    | Some (body, tail) =>
                        Some (String c (String e (String h1 (String h2
                                (String h3 (String h4 body))))), tail)
                    | None => None
                    end
                  else None
              | _ => None
              end
            else None
        end
      else
        match json_string_body rest with
        | Some (body, tail) => Some (String c body, tail)
        | None => None
        end
  end.

(** A text that JSON allows unescaped inside a string: no control
    character, no double quote, no backslash. *)
Fixpoint plain (s : string) : bool :=
  match s with
  | EmptyString => true
  | String c rest =>
      negb (is_control c) && negb (is_quote c) && negb (is_backslash c)
      && plain rest
  end.

(** A text without double quote and without backslash. *)
Fixpoint no_quote_no_backslash (s : string) : bool :=
  match s with
  | EmptyString => true
  | String c rest =>
      negb (is_quote c) && negb (is_backslash c) && no_quote_no_backslash rest
  end.

(** The text before the first double quote and the text after it. *)
Fixpoint split_at_quote (s : string) : option (string * string) :=
  match s with
  | EmptyString => None
  | String c rest =>
      if is_quote c then Some (EmptyString, rest)
      else
        match split_at_quote rest with
        | Some (body, tail) => Some (String c body, tail)
        | None => None
        end
  end.

(** [s] without the prefix [p]; [None] when [s] does not start with it. *)
Fixpoint strip_prefix (p s : string) : option string :=
  match p, s with
  | EmptyString, _ => Some s
  | String a p', String b s' =>
      if Ascii.eqb a b then strip_prefix p' s' else None
  | String _ _, EmptyString => None
  end.

(** The value [v], interpolated between two quotes and followed by [rest],
    ends at the quote the template wrote: [rest] is what a JSON reader
    finds after the value. *)
Definition closes_at (v rest : string) : Prop :=
  exists body, json_string_body (v ++ dq ++ rest) = Some (body, rest).

(** No string value of the entry of [review] ends early. *)
Definition entry_values_whole (h : Host) (review : GoogleReview) : Prop :=
  closes_at (comment review) (after_comment h review)
  /\ closes_at (createTime review) (after_createTime h review)
  /\ closes_at (displayName (reviewer review)) (after_displayName h review).

(** ** Sample configurations *)

(** The number conversion of the sample page.  On the integers below
    10^21 in absolute value and on the non-finite values it is
    JavaScript's; no sample interpolates any other number, for which a
    fraction is printed. *)
Definition sample_number_to_string (n : number) : string :=
  match n with
  | Finite q =>
      if Number_isInteger n
      then DecimalString.NilEmpty.string_of_int
             (Z.to_int (Qnum q / Z.pos (Qden q)))
      else DecimalString.NilEmpty.string_of_int (Z.to_int (Qnum q))
           ++ "/"
           ++ DecimalString.NilEmpty.string_of_int (Z.to_int (Z.pos (Qden q)))
  | PosInfinity => "Infinity"
  | NegInfinity => "-Infinity"
  | NaN => "NaN"
  end.

Definition sample_host : Host :=
  {| number_to_string := sample_number_to_string;
     document_title := "Trattoria";
     document_location_href := "https://example.org/" |}.

Definition ada : GoogleReview :=
  {| reviewer := {| displayName := "Ada Lovelace"; isAnonymous := false |};
     comment := "Lovely place";
     createTime := "2024-01-01T00:00:00Z";
     starRating := num 5 |}.

Definition anon : GoogleReview :=
  {| reviewer := {| displayName := "A Google user"; isAnonymous := true |};
     comment := "Fine";
     createTime := "2024-02-02T00:00:00Z";
     starRating := num 4 |}.

(** A review whose comment reads [Great "pizza"], quotes included. *)
Definition quoting : GoogleReview :=
  {| reviewer := {| displayName := "Grace Hopper"; isAnonymous := true |};
     comment := "Great " ++ dq ++ "pizza" ++ dq;
     createTime := "2024-03-03T00:00:00Z";
     starRating := num 5 |}.

(** Props with every optional field absent. *)
Definition bare_props (s : props.source) (v : props.variant) : props.t :=
  {| props.src := s;
     props.var := v;
     props.nameDisplay := None;
     props.logoVariant := None;
     props.maxCharacters := None;
     props.dateDisplay := None;
     props.reviewVariant := None;
     props.theme := None;
     props.structuredData := None;
     props.brandName := None;
     props.productName := None;
     props.productDescription := None;
     props.accessibility := None;
     props.totalReviewCount := None;
     props.averageRating := None |}.

Definition with_aggregates (n r : option number) (p : props.t) : props.t :=
  {| props.src := props.src p;
     props.var := props.var p;
     props.nameDisplay := props.nameDisplay p;
     props.logoVariant := props.logoVariant p;
     props.maxCharacters := props.maxCharacters p;
     props.dateDisplay := props.dateDisplay p;
     props.reviewVariant := props.reviewVariant p;
     props.theme := props.theme p;
     props.structuredData := props.structuredData p;
     props.brandName := props.brandName p;
     props.productName := props.productName p;
     props.productDescription := props.productDescription p;
     props.accessibility := props.accessibility p;
     props.totalReviewCount := n;
     props.averageRating := r |}.

Definition supplied_carousel : props.t :=
  bare_props (props.with_reviews [ada; anon])
             (props.carousel_props None None None).

Definition remote_carousel (featurableId : string) : props.t :=
  bare_props (props.with_featurableId featurableId)
             (props.carousel_props None None None).

Definition remote_badge (featurableId : string) : props.t :=
  bare_props (props.with_featurableId featurableId) (props.badge_props None).

Definition supplied_badge : props.t :=
  bare_props (props.with_reviews [ada]) (props.badge_props None).

(** A review count of -1. *)
Definition negative_count : props.t :=
  with_aggregates (Some (num (-1))) None supplied_carousel.

(** The instance after mounting with identifier [A] and re-rendering with
    identifier [B], while the response for [A] is still awaited. *)
Definition from_A_to_B : completion Instance :=
  match mount sample_host (remote_carousel "A") with
  | Normal i => update sample_host (remote_carousel "B") i
  | Throw e => Throw e
  end.

(** The instance mounted with identifier [A], its response awaited. *)
Definition mounted_A : Instance :=
  {| current_props := remote_carousel "A";
     cells := mkState [] true false null null null;
     deps := Some "A";
     in_flight := [endpoint "A"];
     requests := [endpoint "A"] |}.

(** The instance [from_A_to_B], written out. *)
Definition awaiting_A_and_B : Instance :=
  {| current_props := remote_carousel "B";
     cells := mkState [] true false null null null;
     deps := Some "B";
     in_flight := [endpoint "A"; endpoint "B"];
     requests := [endpoint "A"; endpoint "B"] |}.

Definition ready_cells (rs : list GoogleReview) : State :=
  {| reviews := rs; loading := false; error := false; profileUrl := null;
     totalReviewCount := null; averageRating := null |}.

(** ** The template, cut at its values *)

(** The constant text between two values of an entry, each up to and
    including the quote that opens the next value. *)
Definition datePublished_opening : string :=
  "," ++ nl ++ "            " ++ lit "datePublished" ++ ": " ++ dq.

Definition author_opening : string :=
  "," ++ nl ++
  "            " ++ lit "author" ++ ": { " ++ lit "@type" ++ ": "
    ++ lit "Person" ++ ", " ++ lit "name" ++ ": " ++ dq.

Definition rating_opening : string :=
  " }," ++ nl ++
  "            " ++ lit "reviewRating" ++ ": { " ++ lit "@type" ++ ": "
    ++ lit "Rating" ++ ", " ++ lit "ratingValue" ++ ": ".

Definition rating_closing : string := " }" ++ nl ++ "        }".

(** The outer template from the description on: each [doc_after_] piece
    starts right after the quote that closes the value. *)
Definition doc_after_description (h : Host)
    (averageRating totalReviewCount : maybe number)
    (reviews : list GoogleReview) : string :=
  "," ++ nl ++
  "    " ++ lit "image" ++ ": []," ++ nl ++
  "    " ++ lit "aggregateRating" ++ ": {" ++ nl ++
  "        " ++ lit "@type" ++ ": " ++ lit "AggregateRating" ++ "," ++ nl ++
  "        " ++ lit "ratingValue" ++ ": " ++ interpolate h averageRating
    ++ "," ++ nl ++
  "        " ++ lit "reviewCount" ++ ": "
    ++ interpolate h totalReviewCount ++ "," ++ nl ++
  "        " ++ lit "bestRating" ++ ": 5," ++ nl ++
  "        " ++ lit "worstRating" ++ ": 1" ++ nl ++
  "    }," ++ nl ++
  "    " ++ lit "review" ++ ": [" ++ review_list h reviews ++ "]" ++ nl ++
  "}" ++ nl.

Definition doc_after_brand (h : Host) (p : props.t)
    (averageRating totalReviewCount : maybe number)
    (reviews : list GoogleReview) : string :=
  " }," ++ nl ++
  "    " ++ lit "description" ++ ": " ++ dq
    ++ nullish (props.productDescription p) EmptyString ++ dq
    ++ doc_after_description h averageRating totalReviewCount reviews.

Definition doc_after_url (h : Host) (p : props.t)
    (averageRating totalReviewCount : maybe number)
    (reviews : list GoogleReview) : string :=
  "," ++ nl ++
  "    " ++ lit "brand" ++ ": { " ++ lit "@type" ++ ": " ++ lit "Brand"
    ++ ", " ++ lit "name" ++ ": " ++ dq
    ++ nullish (props.brandName p) (document_title h) ++ dq
    ++ doc_after_brand h p averageRating totalReviewCount reviews.

Definition doc_after_name (h : Host) (p : props.t)
    (averageRating totalReviewCount : maybe number)
    (reviews : list GoogleReview) : string :=
  "," ++ nl ++
  "    " ++ lit "url" ++ ": " ++ dq ++ document_location_href h ++ dq
    ++ doc_after_url h p averageRating totalReviewCount reviews.

Definition doc_before_name : string :=
  "{" ++ nl ++
  "    " ++ lit "@context" ++ ": " ++ lit "https://schema.org" ++ "," ++ nl ++
  "    " ++ lit "@type" ++ ": " ++ lit "Product" ++ "," ++ nl ++
  "    " ++ lit "name" ++ ": " ++ dq.

(** The constant text that leads to the URL, to the brand name and to the
    description. *)
Definition url_opening : string :=
  "," ++ nl ++ "    " ++ lit "url" ++ ": " ++ dq.

Definition brand_opening : string :=
  "," ++ nl ++
  "    " ++ lit "brand" ++ ": { " ++ lit "@type" ++ ": " ++ lit "Brand"
    ++ ", " ++ lit "name" ++ ": " ++ dq.

Definition description_opening : string :=
  " }," ++ nl ++ "    " ++ lit "description" ++ ": " ++ dq.

(** *** Reading the text back *)

(** The three string values of an entry as a JSON reader finds them: the
    constant text of the template is skipped, each value is read by the
    grammar of strings.  The result also carries what follows the display
    name.  [None] when the text does not have that shape. *)
Definition read_entry (text : string)
    : option (string * string * string * string) :=
  match strip_prefix before_comment text with
  | None => None
  | Some t1 =>
  match json_string_body t1 with
  | None => None
  | Some (c, t2) =>
  match strip_prefix datePublished_opening t2 with
  | None => None
  | Some t3 =>
  match json_string_body t3 with
  | None => None
  | Some (t, t4) =>
  match strip_prefix author_opening t4 with
  | None => None
  | Some t5 =>
  match json_string_body t5 with
  | None => None
  | Some (n, t6) => Some (c, t, n, t6)
  end end end end end end.

(** The four string values of the document, read the same way: product
    name, URL, brand name, description, and what follows the description. *)
Definition read_document (text : string)
    : option (string * string * string * string * string) :=
  match strip_prefix doc_before_name text with
  | None => None
  | Some t1 =>
  match json_string_body t1 with
  | None => None
  | Some (name, t2) =>
  match strip_prefix url_opening t2 with
  | None => None
  | Some t3 =>
  match json_string_body t3 with
  | None => None
  | Some (url, t4) =>
  match strip_prefix brand_opening t4 with
  | None => None
  | Some t5 =>
  match json_string_body t5 with
  | None => None
  | Some (brand, t6) =>
  match strip_prefix description_opening t6 with
  | None => None
  | Some t7 =>
  match json_string_body t7 with
  | None => None
  | Some (description, t8) => Some (name, url, brand, description, t8)
  end end end end end end end end.

(** ** The life of an instance *)

(** One event after the mount: a render with new props, or a response. *)
Inductive step (h : Host) : Instance -> Instance -> Prop :=
| step_update p i i' : update h p i = Normal i' -> step h i i'
| step_settle k o i i' : settle k o i = Some i' -> step h i i'.

(** Any number of events. *)
Inductive steps (h : Host) : Instance -> Instance -> Prop :=
| steps_refl i : steps h i i
| steps_next i j k : steps h i j -> step h j k -> steps h i k.

(** ** More samples *)

(** The instance mounted with [A] after its fetch was rejected. *)
Definition failed_A : Instance :=
  {| current_props := remote_carousel "A";
     cells := mkState [] false true null null null;
     deps := Some "A";
     in_flight := [];
     requests := [endpoint "A"] |}.

(** The same instance re-rendered with [B], and then reached by the
    response for [B]. *)
Definition failed_A_then_B : Instance :=
  {| current_props := remote_carousel "B";
     cells := mkState [] false true null null null;
     deps := Some "B";
     in_flight := [endpoint "B"];
     requests := [endpoint "A"; endpoint "B"] |}.

Definition failed_A_then_B_answered : Instance :=
  {| current_props := remote_carousel "B";
     cells := mkState [ada] false true (just "u") (just (num 1))
                      (just (num 5));
     deps := Some "B";
     in_flight := [];
     requests := [endpoint "A"; endpoint "B"] |}.

(** The supplied carousel once mounted, and once re-rendered as a badge
    with a review count of 3 and a rating of 2. *)
Definition mounted_supplied : Instance :=
  {| current_props := supplied_carousel;
     cells := mkState [ada; anon] false false null null null;
     deps := None;
     in_flight := [];
     requests := [] |}.

Definition rerendered_supplied : Instance :=
  {| current_props :=
       with_aggregates (Some (num 3)) (Some (num 2)) supplied_badge;
     cells := mkState [ada; anon] false false null null null;
     deps := None;
     in_flight := [];
     requests := [] |}.

(** A custom layout that prints the comments it is given. *)
Definition supplied_custom : props.t :=
  bare_props (props.with_reviews [ada; anon])
             (props.custom_props
                (fun rs => foreign (String.concat ", " (map comment rs)))).

(** Cells of a badge that has both aggregates. *)
Definition badge_cells : State :=
  {| reviews := [ada]; loading := false; error := false;
     profileUrl := just "https://example.org/maps";
     totalReviewCount := just (num 12); averageRating := just (num 4) |}.

(** A configuration whose rating is [NaN]. *)
Definition nan_rating : props.t :=
  with_aggregates None (Some NaN) supplied_carousel.

(** A success body that has reviews, a profile URL and a count, and no
    [averageRating] property. *)
Definition body_without_rating : data.t :=
  data.ok [ada] (just "https://example.org/maps") (just (num 12)) undefined.

(** The badge mounted with identifier [A], and the same instance once
    [body_without_rating] has arrived. *)
Definition mounted_badge_A : Instance :=
  {| current_props := remote_badge "A";
     cells := mkState [] true false null null null;
     deps := Some "A";
     in_flight := [endpoint "A"];
     requests := [endpoint "A"] |}.

Definition badge_A_without_rating : Instance :=
  {| current_props := remote_badge "A";
     cells := mkState [ada] false false (just "https://example.org/maps")
                      (just (num 12)) undefined;
     deps := Some "A";
     in_flight := [];
     requests := [endpoint "A"] |}.

(** * Properties *)

(** ** Numbers *)

Lemma Qltb_iff (a b : Q) : Qltb a b = true <-> (a < b)%Q.
Proof.
  unfold Qltb. rewrite Qlt_alt.
  destruct (a ?= b)%Q; split; intro H; congruence.
Qed.

Lemma Number_isInteger_iff (n : number) :
  Number_isInteger n = true <-> is_integer n.
Proof.
  destruct n as [q | | |]; simpl; try (split; [discriminate | tauto]).
  rewrite Z.eqb_eq. split.
  - intro H. exists (Qnum q / Z.pos (Qden q))%Z.
    unfold Qeq, inject_Z; simpl.
    rewrite Z.mul_1_r.
    pose proof (Z.div_mod (Qnum q) (Z.pos (Qden q)) ltac:(lia)) as E.
    rewrite H in E. lia.
  - intros [z H]. unfold Qeq, inject_Z in H; simpl in H.
    rewrite Z.mul_1_r in H. rewrite H. apply Z.mod_mul. lia.
Qed.

Lemma number_lt_0_iff (n : number) :
  number_lt n (num 0) = true <-> negative n.
Proof.
  destruct n as [q | | |]; simpl; try (split; [discriminate | tauto]);
    try tauto.
  apply Qltb_iff.
Qed.

Lemma below_1_or_above_5_iff (r : number) :
  number_lt r (num 1) || number_gt r (num 5) = true <-> below_1_or_above_5 r.
Proof.
  rewrite orb_true_iff. unfold number_gt.
  destruct r as [q | | |]; simpl; try rewrite !Qltb_iff;
    try tauto; intuition discriminate.
Qed.

(** ** Validation *)

Lemma validate_rejected (p : props.t) :
  validate p <> None <-> rejected_parameter p.
Proof.
  unfold validate, rejected_parameter.
  destruct (props.totalReviewCount p) as [n |] eqn:En.
  - destruct (number_lt n (num 0) || negb (Number_isInteger n)) eqn:Hn.
    + split; [intros _ | discriminate].
      left. exists n. split; [reflexivity |].
      apply orb_true_iff in Hn as [Hn | Hn].
      * left. now apply number_lt_0_iff.
      * right. rewrite <- Number_isInteger_iff.
        apply negb_true_iff in Hn. congruence.
    + apply orb_false_iff in Hn as [Hlt Hint].
      apply negb_false_iff in Hint.
      assert (Hcount : ~ (negative n \/ ~ is_integer n)).
      { intros [H | H].
        - apply number_lt_0_iff in H. congruence.
        - apply H. now apply Number_isInteger_iff. }
      destruct (props.averageRating p) as [r |] eqn:Er.
      * destruct (number_lt r (num 1) || number_gt r (num 5)) eqn:Hr.
        -- split; [intros _ | discriminate].
           right. exists r. split; [reflexivity |].
           now apply below_1_or_above_5_iff.
        -- split; [congruence |].
           intros [(n' & E & H) | (r' & E & H)].
           ++ injection E as <-. contradiction.
           ++ injection E as <-. apply below_1_or_above_5_iff in H.
              congruence.
      * split; [congruence |].
        intros [(n' & E & H) | (r' & E & _)]; [| discriminate].
        injection E as <-. contradiction.
  - destruct (props.averageRating p) as [r |] eqn:Er.
    + destruct (number_lt r (num 1) || number_gt r (num 5)) eqn:Hr.
      * split; [intros _ | discriminate].
        right. exists r. split; [reflexivity |].
        now apply below_1_or_above_5_iff.
      * split; [congruence |].
        intros [(n' & E & _) | (r' & E & H)]; [discriminate |].
        injection E as <-. apply below_1_or_above_5_iff in H. congruence.
    + split; [congruence |].
      intros [(n' & E & _) | (r' & E & _)]; discriminate.
Qed.

Lemma component_throws (h : Host) (p : props.t) (c : option State) (e : Error) :
  ReactGoogleReviews h p c = Throw e <-> validate p = Some e.
Proof.
  unfold ReactGoogleReviews.
  destruct (validate p) as [e' |]; split; intro H; try discriminate;
    congruence.
Qed.

Lemma component_returns (h : Host) (p : props.t) (c : option State) :
  validate p = None ->
  ReactGoogleReviews h p c
  = Normal (use_states p c, dispatch h p (use_states p c)).
Proof.
  intro V. unfold ReactGoogleReviews. now rewrite V.
Qed.

(** X15: the component throws exactly on the configurations whose supplied
    [totalReviewCount] is negative or not an integer, or whose supplied
    [averageRating] compares below 1 or above 5.  The throw happens in the
    call itself, on the first render as on any later one, whatever the
    state cells hold: mounting then yields the error and no instance, so no
    cell is created, no effect runs and nothing is rendered. *)
Theorem guards_fire_iff_rejected (h : Host) (p : props.t) :
  (rejected_parameter p <->
   exists e, forall c : option State, ReactGoogleReviews h p c = Throw e)
  /\ (rejected_parameter p <-> exists e, mount h p = Throw e)
  /\ (~ rejected_parameter p <-> exists i, mount h p = Normal i).
Proof.
  rewrite <- validate_rejected.
  unfold mount, ReactGoogleReviews.
  destruct (validate p) as [e |].
  - repeat split; try congruence.
    + intros _. now exists e.
    + intros _. now exists e.
    + intro H. exfalso. apply H. congruence.
    + intros [i H]. discriminate.
  - repeat split.
    + congruence.
    + intros [e H]. specialize (H None). discriminate.
    + congruence.
    + intros [e H]. destruct (effect p (use_states p None)). discriminate.
    + intros _. destruct (effect p (use_states p None)) as [s' gets].
      eexists. reflexivity.
    + intros _ H. now apply H.
Qed.

(** X15, at a review count of -1. *)
Lemma guards_fire_iff_rejected_witness :
  rejected_parameter negative_count
  /\ mount sample_host negative_count
     = Throw (mkError "totalReviewCount must be a positive integer").
Proof.
  split.
  - apply (proj1 (proj2 (guards_fire_iff_rejected sample_host
                           negative_count))).
    eexists. reflexivity.
  - reflexivity.
Defined.

(** Off the range means below 1 or above 5 for every number but [NaN]. *)
Lemma not_in_range_iff (r : number) :
  ~ in_range_1_5 r <-> below_1_or_above_5 r \/ r = NaN.
Proof.
  destruct r as [q | | |]; simpl.
  - split.
    + intro H. left.
      destruct (Qlt_le_dec q 1) as [L | L]; [now left |].
      destruct (Qlt_le_dec 5 q) as [U | U]; [now right |].
      exfalso. apply H. now split.
    + intros [[L | U] | E] [H1 H5]; [| | discriminate E].
      * exact (Qlt_not_le _ _ L H1).
      * exact (Qlt_not_le _ _ U H5).
  - split; [intros _; now left | intros _ H; exact H].
  - split; [intros _; now left | intros _ H; exact H].
  - split; [intros _; now right | intros _ H; exact H].
Qed.

(** The guards reject nothing the spec accepts, and the only
    configurations of the spec's list that they let through are those
    whose rating is [NaN]. *)
Lemma invalid_iff_rejected_or_NaN (p : props.t) :
  invalid_parameter p
  <-> rejected_parameter p \/ props.averageRating p = Some NaN.
Proof.
  unfold invalid_parameter, rejected_parameter. split.
  - intros [C | (r & E & H)]; [left; now left |].
    apply not_in_range_iff in H as [H | ->].
    + left. right. now exists r.
    + now right.
  - intros [[C | (r & E & H)] | E].
    + now left.
    + right. exists r. split; [exact E |].
      apply not_in_range_iff. now left.
    + right. exists NaN. split; [exact E |]. intro H. exact H.
Qed.

(** C5: a rating of [NaN] is not in the range from 1 to 5, yet neither
    guard fires on it: the configuration passes validation, mounts, and
    the state holds [NaN] as its average rating. *)
Theorem NaN_rating_is_accepted :
  invalid_parameter nan_rating
  /\ validate nan_rating = None
  /\ exists i,
       mount sample_host nan_rating = Normal i
       /\ lifecycle (cells i) = Lifecycle.Ready
       /\ averageRating (cells i) = just NaN.
Proof.
  split; [| split].
  - right. exists NaN. split; [reflexivity |]. intro H. exact H.
  - reflexivity.
  - eexists. split; [reflexivity |]. split; reflexivity.
Qed.

(** ** Render dispatch *)

Lemma is_null_true {A : Type} (a : maybe A) : is_null a = true <-> a = null.
Proof. destruct a; simpl; split; congruence. Qed.

Lemma Layout_eqb_eq (a b : Layout) : Layout_eqb a b = true <-> a = b.
Proof. destruct a, b; simpl; split; congruence. Qed.

(** The guard of the badge layout, in the words of the spec. *)
Lemma badge_guard_iff (p : props.t) (s : State) :
  Layout_eqb (props.layout p) badge
  && (is_null (averageRating s) || is_null (totalReviewCount s)) = true
  <-> props.layout p = badge
      /\ (averageRating s = null \/ totalReviewCount s = null).
Proof.
  now rewrite andb_true_iff, orb_true_iff, Layout_eqb_eq, !is_null_true.
Qed.

Lemma dispatch_error (h : Host) (p : props.t) (s : State) :
  loading s = false ->
  error s = true
  \/ (props.layout p = badge
      /\ (averageRating s = null \/ totalReviewCount s = null)) ->
  dispatch h p s = ErrorState.
Proof.
  unfold dispatch. intros -> G.
  destruct (error s); [reflexivity |]. simpl.
  destruct G as [G | G]; [discriminate |].
  apply badge_guard_iff in G. now rewrite G.
Qed.

(** C7: the dispatch has one output and a fixed precedence.  While
    [loading] holds it is the loading placeholder, whatever the
    configuration; otherwise, on [error] or on the badge guard, the error
    placeholder; otherwise a container whose three layout slots hold the
    branch of the configured layout and nothing else (the custom branch is
    the renderer applied to the resolved reviews). *)
Theorem dispatch_precedence (h : Host) (p : props.t) (s : State) :
  (loading s = true -> dispatch h p s = LoadingState)
  /\ (loading s = false ->
      error s = true
      \/ (props.layout p = badge
          /\ (averageRating s = null \/ totalReviewCount s = null)) ->
      dispatch h p s = ErrorState)
  /\ (loading s = false ->
      error s = false ->
      ~ (props.layout p = badge
         /\ (averageRating s = null \/ totalReviewCount s = null)) ->
      match props.var p with
      | props.carousel_props _ _ _ =>
          exists c,
            dispatch h p s
            = div [structured_data_block h p s; Carousel c; nothing; nothing]
            /\ carousel_reviews c = reviews s
      | props.badge_props _ =>
          exists b,
            dispatch h p s
            = div [structured_data_block h p s; nothing; Badge b; nothing]
            /\ badge_averageRating b = averageRating s
            /\ badge_totalReviewCount b = totalReviewCount s
      | props.custom_props renderer =>
          dispatch h p s
          = div [structured_data_block h p s; nothing; nothing;
                 renderer (reviews s)]
      end).
Proof.
  repeat split.
  - unfold dispatch. intros ->. reflexivity.
  - apply dispatch_error.
  - unfold dispatch. intros -> -> G. simpl.
    destruct (Layout_eqb (props.layout p) badge
              && (is_null (averageRating s) || is_null (totalReviewCount s)))
      eqn:B.
    { exfalso. apply G. now apply badge_guard_iff. }
    unfold carousel_block, badge_block, custom_block, props.layout,
      props.layout in *.
    destruct (props.var p); simpl.
    + eexists. split; reflexivity.
    + eexists. split; [reflexivity | split; reflexivity].
    + reflexivity.
Qed.

(** C7, on three sample states of a supplied carousel. *)
Lemma dispatch_precedence_witness :
  dispatch sample_host supplied_carousel
           (setLoading true (ready_cells [ada])) = LoadingState
  /\ dispatch sample_host supplied_carousel
              (setError true (ready_cells [ada])) = ErrorState
  /\ exists c,
       dispatch sample_host supplied_carousel (ready_cells [ada])
       = div [nothing; Carousel c; nothing; nothing]
       /\ carousel_reviews c = [ada].
Proof.
  split; [| split].
  - apply (proj1 (dispatch_precedence sample_host supplied_carousel
                    (setLoading true (ready_cells [ada])))).
    reflexivity.
  - apply (proj1 (proj2 (dispatch_precedence sample_host supplied_carousel
                           (setError true (ready_cells [ada]))))).
    + reflexivity.
    + left. reflexivity.
  - apply (proj2 (proj2 (dispatch_precedence sample_host supplied_carousel
                           (ready_cells [ada])))).
    + reflexivity.
    + reflexivity.
    + intros [H _]. discriminate H.
Defined.

(** A badge whose cells are Ready but hold [null] as average rating or as
    review count shows the error placeholder, the very output of the same
    cells with [error] set. *)
Lemma badge_null_aggregate_is_error (h : Host) (p : props.t) (s : State) :
  validate p = None ->
  props.layout p = badge ->
  lifecycle s = Lifecycle.Ready ->
  averageRating s = null \/ totalReviewCount s = null ->
  ReactGoogleReviews h p (Some s) = Normal (s, ErrorState)
  /\ dispatch h p s = dispatch h p (setError true s).
Proof.
  intros V L R G.
  assert (Hl : loading s = false).
  { unfold lifecycle in R. destruct (loading s); [discriminate | reflexivity]. }
  assert (E : dispatch h p s = ErrorState).
  { apply dispatch_error; auto. }
  split.
  - rewrite component_returns by assumption.
    assert (U : use_states p (Some s) = s) by (destruct s; reflexivity).
    now rewrite U, E.
  - rewrite E. unfold dispatch. simpl. now rewrite Hl.
Qed.

(** C6: a badge mounted in remote mode receives a success body without
    [averageRating].  The cell then holds [undefined], which is not
    [null]: the instance is Ready, the guard does not fire, and the badge
    is rendered with an undefined rating instead of the error
    placeholder. *)
Theorem badge_rendered_without_rating :
  mount sample_host (remote_badge "A") = Normal mounted_badge_A
  /\ settle 0 (parsed body_without_rating) mounted_badge_A
     = Some badge_A_without_rating
  /\ lifecycle (cells badge_A_without_rating) = Lifecycle.Ready
  /\ averageRating (cells badge_A_without_rating) = undefined
  /\ view sample_host badge_A_without_rating
     = Normal (div [nothing; nothing;
                    Badge {| badge_averageRating := undefined;
                             badge_totalReviewCount := just (num 12);
                             badge_profileUrl :=
                               just "https://example.org/maps";
                             badge_theme := None |};
                    nothing]).
Proof. repeat split. Qed.

(** ** Mounting *)

Lemma remote_mode_inv (p : props.t) :
  remote_mode p ->
  exists c id, props.src p = props.with_featurableId (String c id).
Proof.
  unfold remote_mode, props.featurableId.
  destruct (props.src p) as [r | [| c id]]; simpl; try discriminate.
  intros _. now exists c, id.
Qed.

Lemma mount_supplied (h : Host) (p : props.t) (R : list GoogleReview) :
  supplied_mode p R ->
  validate p = None ->
  mount h p
  = Normal {| current_props := p;
              cells := setLoading false (use_states p None);
              deps := None;
              in_flight := [];
              requests := [] |}.
Proof.
  unfold supplied_mode, mount, effect, props.featurableId.
  intros S V. rewrite component_returns by assumption.
  now rewrite S.
Qed.

Lemma mount_remote (h : Host) (p : props.t) (i : Instance) :
  remote_mode p ->
  mount h p = Normal i ->
  exists id,
    props.featurableId p = Some id
    /\ validate p = None
    /\ i = {| current_props := p;
              cells := use_states p None;
              deps := Some id;
              in_flight := [endpoint id];
              requests := [endpoint id] |}.
Proof.
  intros M. unfold mount, ReactGoogleReviews, effect. rewrite M.
  destruct (remote_mode_inv p M) as (c & id & S).
  unfold props.featurableId. rewrite S. simpl.
  destruct (validate p); [discriminate |].
  intro E. injection E as <-. now exists (String c id).
Qed.

Lemma use_states_stored (p : props.t) (s : State) : use_states p (Some s) = s.
Proof. destruct s; reflexivity. Qed.

Lemma view_valid (h : Host) (i : Instance) :
  validate (current_props i) = None ->
  view h i = Normal (dispatch h (current_props i) (cells i)).
Proof.
  intro V. unfold view.
  now rewrite component_returns, use_states_stored by assumption.
Qed.

Lemma settle_failure_cells (o : fetch_outcome) (s : State) :
  acquisition_failure o ->
  settle_cells o s = setLoading false (setError true s).
Proof. intros [-> | [-> | ->]]; reflexivity. Qed.

(** C3: a remote-mode instance is Loading once mounted and shows the
    loading placeholder; when the body arrives with [success] set, the
    instance is Ready and its four resolved fields are the four values of
    the body.  The overwrite is complete from any cells: no field keeps
    what the configuration supplied. *)
Theorem remote_success (h : Host) (p : props.t) (i : Instance)
    (R : list GoogleReview) (u : maybe string) (n a : maybe number) :
  remote_mode p ->
  mount h p = Normal i ->
  (lifecycle (cells i) = Lifecycle.Loading
   /\ view h i = Normal LoadingState
   /\ exists i',
        settle 0 (parsed (data.ok R u n a)) i = Some i'
        /\ in_flight i' = []
        /\ lifecycle (cells i') = Lifecycle.Ready
        /\ reviews (cells i') = R
        /\ profileUrl (cells i') = u
        /\ totalReviewCount (cells i') = n
        /\ averageRating (cells i') = a)
  /\ (forall s : State,
        reviews (settle_cells (parsed (data.ok R u n a)) s) = R
        /\ profileUrl (settle_cells (parsed (data.ok R u n a)) s) = u
        /\ totalReviewCount (settle_cells (parsed (data.ok R u n a)) s) = n
        /\ averageRating (settle_cells (parsed (data.ok R u n a)) s) = a).
Proof.
  intros M E.
  destruct (mount_remote h p i M E) as (id & F & V & ->).
  split; [| intro s; repeat split].
  split; [reflexivity |]. split.
  - now rewrite view_valid by assumption.
  - eexists. split; [reflexivity |]. repeat split.
Qed.

(** C3, for the body of the spec's example. *)
Lemma remote_success_witness :
  exists i i',
    mount sample_host (remote_carousel "A") = Normal i
    /\ settle 0 (parsed (data.ok [ada] (just "u") (just (num 12))
                                  (just (Finite (9 # 2))))) i
       = Some i'
    /\ lifecycle (cells i') = Lifecycle.Ready
    /\ reviews (cells i') = [ada]
    /\ profileUrl (cells i') = just "u"
    /\ totalReviewCount (cells i') = just (num 12)
    /\ averageRating (cells i') = just (Finite (9 # 2)).
Proof.
  eexists.
  destruct (remote_success sample_host (remote_carousel "A") _
              [ada] (just "u") (just (num 12)) (just (Finite (9 # 2)))
              eq_refl eq_refl)
    as [(_ & _ & i' & S & _ & L) _].
  exists i'. split; [reflexivity |]. split; [exact S | exact L].
Defined.

(** C4: in remote mode a fetch that rejects, a body that does not parse
    and a body with [success: false] all take the instance from Loading to
    Error; the chain itself absorbs the failure, and the next render
    returns the error placeholder instead of throwing. *)
Theorem remote_failure (h : Host) (p : props.t) (i : Instance)
    (o : fetch_outcome) :
  remote_mode p ->
  mount h p = Normal i ->
  acquisition_failure o ->
  lifecycle (cells i) = Lifecycle.Loading
  /\ exists i',
       settle 0 o i = Some i'
       /\ lifecycle (cells i') = Lifecycle.Error
       /\ view h i' = Normal ErrorState.
Proof.
  intros M E O.
  destruct (mount_remote h p i M E) as (id & F & V & ->).
  split; [reflexivity |].
  eexists. split; [reflexivity |]. simpl.
  rewrite (settle_failure_cells o _ O). split; [reflexivity |].
  now rewrite view_valid by assumption.
Qed.

(** C4, for a rejected fetch. *)
Lemma remote_failure_witness :
  exists i i',
    mount sample_host (remote_carousel "A") = Normal i
    /\ settle 0 rejected i = Some i'
    /\ lifecycle (cells i') = Lifecycle.Error
    /\ view sample_host i' = Normal ErrorState.
Proof.
  eexists.
  destruct (remote_failure sample_host (remote_carousel "A") _ rejected
              eq_refl eq_refl (or_introl eq_refl))
    as (_ & i' & S & L).
  exists i'. split; [reflexivity |]. split; [exact S | exact L].
Defined.

(** C10: a failed acquisition touches the two flags only.  After it the
    four resolved fields of a remote-mode instance are still the ones the
    first render derived from the configuration (no review, the supplied
    profile URL of a badge, the supplied aggregates, null where absent),
    and from any cells whatever the failure leaves the four fields as they
    were. *)
Theorem failure_keeps_data (h : Host) (p : props.t) (i : Instance)
    (o : fetch_outcome) :
  remote_mode p ->
  mount h p = Normal i ->
  acquisition_failure o ->
  (exists i',
     settle 0 o i = Some i'
     /\ reviews (cells i') = []
     /\ profileUrl (cells i') = or_null (props.profileUrl p)
     /\ totalReviewCount (cells i') = or_null (props.totalReviewCount p)
     /\ averageRating (cells i') = or_null (props.averageRating p)
     /\ error (cells i') = true
     /\ loading (cells i') = false)
  /\ (forall s : State,
        reviews (settle_cells o s) = reviews s
        /\ profileUrl (settle_cells o s) = profileUrl s
        /\ totalReviewCount (settle_cells o s) = totalReviewCount s
        /\ averageRating (settle_cells o s) = averageRating s).
Proof.
  intros M E O.
  destruct (mount_remote h p i M E) as (id & F & V & ->).
  split.
  - eexists. split; [reflexivity |]. cbn [cells].
    rewrite (settle_failure_cells o _ O). simpl.
    unfold props.reviews, props.layout, props.profileUrl.
    destruct (remote_mode_inv p M) as (c & id' & ->).
    repeat split.
    destruct (props.var p) as [? ? ? | [u |] | ?]; reflexivity.
  - intro s. rewrite (settle_failure_cells o s O). repeat split.
Qed.

(** C10, for a badge with both aggregates supplied whose body says
    [success: false]. *)
Lemma failure_keeps_data_witness :
  exists i i',
    mount sample_host
          (with_aggregates (Some (num 7)) (Some (num 4)) (remote_badge "A"))
    = Normal i
    /\ settle 0 (parsed data.failure) i = Some i'
    /\ reviews (cells i') = []
    /\ profileUrl (cells i') = null
    /\ totalReviewCount (cells i') = just (num 7)
    /\ averageRating (cells i') = just (num 4)
    /\ error (cells i') = true
    /\ loading (cells i') = false.
Proof.
  eexists.
  destruct (failure_keeps_data sample_host
              (with_aggregates (Some (num 7)) (Some (num 4))
                               (remote_badge "A"))
              _ (parsed data.failure) eq_refl eq_refl
              (or_intror (or_intror eq_refl)))
    as [(i' & S & L) _].
  exists i'. split; [reflexivity |]. split; [exact S | exact L].
Defined.

(** ** Supplied mode *)

(** C1 as stated fails: the first render of a supplied-mode configuration
    returns the loading placeholder. *)
Lemma supplied_first_render_is_loading :
  supplied_mode supplied_carousel [ada; anon]
  /\ validate supplied_carousel = None
  /\ first_render sample_host supplied_carousel = Normal LoadingState.
Proof. repeat split. Qed.

(** C1, amended: in supplied mode the first render returns the loading
    placeholder; the effect that follows it issues no request and clears
    [loading], so the mounted instance is Ready without awaiting anything,
    and its reviews are the supplied array, elements and order
    unchanged. *)
Theorem supplied_ready_after_effect (h : Host) (p : props.t)
    (R : list GoogleReview) :
  supplied_mode p R ->
  validate p = None ->
  first_render h p = Normal LoadingState
  /\ exists i,
       mount h p = Normal i
       /\ requests i = []
       /\ in_flight i = []
       /\ lifecycle (cells i) = Lifecycle.Ready
       /\ reviews (cells i) = R
       /\ view h i <> Normal LoadingState.
Proof.
  intros S V. split.
  - unfold first_render. now rewrite component_returns by assumption.
  - eexists. split; [exact (mount_supplied h p R S V) |].
    repeat split.
    + simpl. unfold props.reviews. now rewrite S.
    + rewrite view_valid by assumption. simpl.
      unfold dispatch. simpl.
      destruct (Layout_eqb _ _ && _); discriminate.
Qed.

(** C1 amended, for a supplied carousel of two reviews. *)
Lemma supplied_ready_after_effect_witness :
  first_render sample_host supplied_carousel = Normal LoadingState
  /\ exists i,
       mount sample_host supplied_carousel = Normal i
       /\ requests i = []
       /\ in_flight i = []
       /\ lifecycle (cells i) = Lifecycle.Ready
       /\ reviews (cells i) = [ada; anon]
       /\ view sample_host i <> Normal LoadingState.
Proof.
  apply (supplied_ready_after_effect sample_host supplied_carousel [ada; anon]).
  - reflexivity.
  - reflexivity.
Defined.

(** ** Fetches across re-renders *)

Lemma same_deps_eq (a b : option string) : same_deps a b = true <-> a = b.
Proof.
  destruct a as [x |], b as [y |]; simpl; try (split; congruence).
  rewrite String.eqb_eq. split; congruence.
Qed.

(** A re-render that returned an instance did not throw: name the cells
    and the output of the call. *)
Ltac rendered U s out :=
  match type of U with
  | context [ReactGoogleReviews ?h ?p ?c] =>
      destruct (ReactGoogleReviews h p c) as [[s out] | ?]; [| discriminate U]
  end.

(** The dependency React remembers is the identifier of the current
    props. *)
Lemma deps_current (h : Host) (i : Instance) :
  reachable h i -> deps i = props.featurableId (current_props i).
Proof.
  induction 1 as [p i M | p i i' _ IH U | k o i i' _ IH S].
  - unfold mount in M. rendered M s out.
    destruct (effect p s). injection M as <-. reflexivity.
  - unfold update in U. rendered U s out.
    destruct (same_deps (deps i) (props.featurableId p)) eqn:D.
    + injection U as <-. simpl. now apply same_deps_eq.
    + destruct (effect p s). injection U as <-. reflexivity.
  - unfold settle in S.
    destruct (nth_error (in_flight i) k); [| discriminate].
    injection S as <-. exact IH.
Qed.

(** C9 as stated fails: with the response for [A] still awaited after the
    identifier changed to [B], that response is applied when it arrives. *)
Lemma stale_response_applied :
  from_A_to_B = Normal awaiting_A_and_B
  /\ reachable sample_host awaiting_A_and_B
  /\ ~ stale_suppressed awaiting_A_and_B.
Proof.
  assert (E : from_A_to_B = Normal awaiting_A_and_B) by reflexivity.
  split; [exact E |]. split.
  - unfold from_A_to_B in E.
    destruct (mount sample_host (remote_carousel "A")) as [i |] eqn:M;
      [| discriminate].
    exact (reach_update _ _ _ _ (reach_mount _ _ _ M) E).
  - intro H.
    assert (C : cells awaiting_A_and_B
                <> settle_cells
                     (parsed (data.ok [ada] (just "u") (just (num 1))
                                      (just (num 5))))
                     (cells awaiting_A_and_B))
      by discriminate.
    apply C. symmetry.
    refine (H 0%nat (endpoint "A")
              (parsed (data.ok [ada] (just "u") (just (num 1)) (just (num 5))))
              (mkInstance _ _ _ _ _) eq_refl _ eq_refl).
    discriminate.
Qed.

(** C9, amended: a re-render whose identifier is the one of the previous
    render issues no request; a re-render whose identifier differs and is
    not empty issues exactly one, for the new identifier; and whichever
    awaited response arrives is run through the chain on the current
    cells, the stale ones included. *)
Theorem fetch_per_identifier_change (h : Host) (i : Instance) :
  reachable h i ->
  (forall p i',
     update h p i = Normal i' ->
     props.featurableId p = props.featurableId (current_props i) ->
     requests i' = requests i /\ in_flight i' = in_flight i)
  /\ (forall p i' id,
        update h p i = Normal i' ->
        props.featurableId p = Some id ->
        remote_mode p ->
        props.featurableId p <> props.featurableId (current_props i) ->
        requests i' = (requests i ++ [endpoint id])%list
        /\ in_flight i' = (in_flight i ++ [endpoint id])%list)
  /\ (forall k url o,
        nth_error (in_flight i) k = Some url ->
        exists j,
          settle k o i = Some j
          /\ cells j = settle_cells o (cells i)
          /\ current_props j = current_props i).
Proof.
  intro R. pose proof (deps_current h i R) as D.
  split; [| split].
  - intros p i' U F. unfold update in U. rendered U s out.
    assert (S : same_deps (deps i) (props.featurableId p) = true)
      by (apply same_deps_eq; congruence).
    rewrite S in U. injection U as <-. split; reflexivity.
  - intros p i' id U F M N. unfold update in U. rendered U s out.
    destruct (same_deps (deps i) (props.featurableId p)) eqn:S.
    + apply same_deps_eq in S. congruence.
    + unfold effect in U. rewrite M, F in U.
      injection U as <-. split; reflexivity.
  - intros k url o N. unfold settle. rewrite N.
    eexists. split; [reflexivity |]. split; reflexivity.
Qed.

(** C9 amended, on the instance mounted with identifier [A]. *)
Lemma fetch_per_identifier_change_witness :
  reachable sample_host mounted_A
  /\ (forall i',
        update sample_host (remote_carousel "A") mounted_A = Normal i' ->
        requests i' = [endpoint "A"])
  /\ (forall i',
        update sample_host (remote_carousel "B") mounted_A = Normal i' ->
        requests i' = [endpoint "A"; endpoint "B"]).
Proof.
  assert (R : reachable sample_host mounted_A)
    by (apply (reach_mount _ (remote_carousel "A")); reflexivity).
  destruct (fetch_per_identifier_change sample_host mounted_A R)
    as (Same & Changed & _).
  split; [exact R |]. split.
  - intros i' U.
    exact (proj1 (Same (remote_carousel "A") i' U eq_refl)).
  - intros i' U.
    refine (proj1 (Changed (remote_carousel "B") i' "B" U eq_refl eq_refl _)).
    discriminate.
Defined.

(** ** Structured data *)

Lemma listed_reviews_anonymous (rs : list GoogleReview) (r : GoogleReview) :
  In r (listed_reviews rs) -> isAnonymous (reviewer r) = true /\ In r rs.
Proof.
  unfold listed_reviews. intro H.
  assert (F : In r (filter (fun r => negb (negb (isAnonymous (reviewer r))))
                           rs)).
  { rewrite <- (firstn_skipn 10). apply in_or_app. now left. }
  apply filter_In in F as [I A].
  rewrite negb_involutive in A. now split.
Qed.

Lemma listed_reviews_length (rs : list GoogleReview) :
  (List.length (listed_reviews rs) <= 10)%nat.
Proof. unfold listed_reviews. apply firstn_le_length. Qed.

(** C8: of a named review followed by an anonymous one, the document keeps
    the anonymous one and drops the named one; of a named review alone it
    lists nothing. *)
Theorem listed_reviews_are_the_anonymous :
  listed_reviews [ada; anon] = [anon]
  /\ review_list sample_host [ada; anon] = review_entry sample_host anon
  /\ review_list sample_host [ada] = EmptyString.
Proof. repeat split. Qed.

(** *** Texts *)

Lemma append_assoc (a b c : string) : (a ++ b) ++ c = a ++ b ++ c.
Proof. induction a as [| x a IH]; simpl; [reflexivity | now rewrite IH]. Qed.

Lemma append_cancel_l (a x y : string) : a ++ x = a ++ y -> x = y.
Proof.
  induction a as [| c a IH]; simpl; intro E; [assumption |].
  injection E as E. now apply IH.
Qed.

Lemma length_append (a b : string) :
  String.length (a ++ b) = (String.length a + String.length b)%nat.
Proof. induction a as [| c a IH]; simpl; [reflexivity | now rewrite IH]. Qed.

Lemma append_cancel_r (x y c : string) : x ++ c = y ++ c -> x = y.
Proof.
  revert y. induction x as [| a x IH]; intros [| b y] E; simpl in E.
  - reflexivity.
  - apply (f_equal String.length) in E. simpl in E.
    rewrite length_append in E. lia.
  - apply (f_equal String.length) in E. simpl in E.
    rewrite length_append in E. lia.
  - injection E as -> E. f_equal. now apply IH.
Qed.

Lemma some_pair_inj {A B : Type} (a c : A) (b d : B) :
  Some (a, b) = Some (c, d) -> a = c /\ b = d.
Proof. intro E. injection E as -> ->. now split. Qed.

Lemma strip_prefix_append (p s : string) : strip_prefix p (p ++ s) = Some s.
Proof.
  induction p as [| c p IH]; simpl; [now destruct s |].
  now rewrite Ascii.eqb_refl.
Qed.

Lemma after_comment_cut (h : Host) (r : GoogleReview) :
  after_comment h r
  = datePublished_opening ++ createTime r ++ dq ++ after_createTime h r.
Proof. reflexivity. Qed.

Lemma after_createTime_cut (h : Host) (r : GoogleReview) :
  after_createTime h r
  = author_opening ++ displayName (reviewer r) ++ dq
      ++ after_displayName h r.
Proof. reflexivity. Qed.

Lemma after_displayName_cut (h : Host) (r : GoogleReview) :
  after_displayName h r
  = rating_opening ++ number_to_string h (starRating r) ++ rating_closing.
Proof. reflexivity. Qed.

Lemma structured_data_cut (h : Host) (p : props.t) (a n : maybe number)
    (rs : list GoogleReview) :
  structured_data h p a n rs
  = doc_before_name ++ nullish (props.productName p) (document_title h)
      ++ dq ++ doc_after_name h p a n rs.
Proof. reflexivity. Qed.

(** *** The reader on interpolated values *)

Lemma control_is_no_quote (c : ascii) :
  is_control c = true -> is_quote c = false.
Proof.
  unfold is_quote. destruct (Ascii.eqb_spec c (ascii_of_nat 34)) as [-> | _];
    [discriminate | reflexivity].
Qed.

(** A text that JSON allows unescaped is read back whole, up to the quote
    that follows it. *)
Lemma json_string_body_plain (v rest : string) :
  plain v = true -> json_string_body (v ++ dq ++ rest) = Some (v, rest).
Proof.
  induction v as [| c v IH]; intro P.
  - reflexivity.
  - cbn [plain] in P. apply andb_true_iff in P as [P Pv].
    apply andb_true_iff in P as [P B].
    apply andb_true_iff in P as [C Q].
    apply negb_true_iff in C, Q, B.
    cbn [append json_string_body]. now rewrite C, Q, B, (IH Pv).
Qed.

(** Without escaping, a value ends at its first quote: what the author
    wrote after it is read as part of the document. *)
Lemma quote_ends_value (a b rest : string) :
  plain a = true ->
  json_string_body ((a ++ dq ++ b) ++ dq ++ rest)
  = Some (a, b ++ dq ++ rest).
Proof.
  intro P. rewrite !append_assoc. now apply json_string_body_plain.
Qed.

(** Without escaping, a control character makes the value unreadable. *)
Lemma control_breaks_value (a : string) (x : ascii) (rest : string) :
  plain a = true ->
  is_control x = true ->
  json_string_body (a ++ String x rest) = None.
Proof.
  intros P X. induction a as [| c a IH].
  - simpl. now rewrite X.
  - cbn [plain] in P. apply andb_true_iff in P as [P Pa].
    apply andb_true_iff in P as [P B].
    apply andb_true_iff in P as [C Q].
    apply negb_true_iff in C, Q, B.
    cbn [append json_string_body]. now rewrite C, Q, B, (IH Pa).
Qed.

Lemma split_at_quote_unquoted (v rest : string) :
  no_quote_no_backslash v = true ->
  split_at_quote (v ++ dq ++ rest) = Some (v, rest).
Proof.
  induction v as [| c v IH]; intro P.
  - reflexivity.
  - cbn [no_quote_no_backslash] in P. apply andb_true_iff in P as [P Pv].
    apply andb_true_iff in P as [Q _].
    apply negb_true_iff in Q.
    cbn [append split_at_quote]. now rewrite Q, (IH Pv).
Qed.

(** C2 as stated fails: the comment [Great "pizza"] is cut at its first
    quote, and the rest of it is read as document text. *)
Lemma quoted_comment_ends_early : ~ entry_values_whole sample_host quoting.
Proof.
  intros [[body H] _].
  unfold quoting at 1 in H. cbn [comment] in H.
  rewrite quote_ends_value in H by reflexivity.
  vm_compute in H. discriminate H.
Qed.

(** C2, amended: every entry is the template with the comment, the
    publish time and the display name put in as they are, whatever they
    hold.  When the three values hold no double quote, no backslash and no
    control character, a JSON reader gets each of them back whole.  A
    comment that holds a double quote after such a text is read back as
    that text only: the value ends at the quote.  A comment that holds a
    control character after such a text leaves an entry that is not
    JSON. *)
Theorem entry_is_verbatim (h : Host) (review : GoogleReview) :
  review_entry h review
  = before_comment ++ comment review ++ dq
      ++ datePublished_opening ++ createTime review ++ dq
      ++ author_opening ++ displayName (reviewer review) ++ dq
      ++ rating_opening ++ number_to_string h (starRating review)
      ++ rating_closing
  /\ (plain (comment review) = true ->
      plain (createTime review) = true ->
      plain (displayName (reviewer review)) = true ->
      read_entry (review_entry h review)
      = Some (comment review, createTime review,
              displayName (reviewer review), after_displayName h review)
      /\ entry_values_whole h review)
  /\ (forall a b : string,
        comment review = a ++ dq ++ b ->
        plain a = true ->
        (exists t1,
           strip_prefix before_comment (review_entry h review) = Some t1
           /\ json_string_body t1
              = Some (a, b ++ dq ++ after_comment h review))
        /\ forall c t n rest,
             read_entry (review_entry h review) = Some (c, t, n, rest) ->
             c = a)
  /\ (forall (a : string) (x : ascii) (b : string),
        comment review = a ++ String x b ->
        plain a = true ->
        is_control x = true ->
        read_entry (review_entry h review) = None).
Proof.
  split; [reflexivity |]. split; [| split].
  - intros Pc Pt Pn. split.
    + unfold read_entry, review_entry.
      rewrite strip_prefix_append, json_string_body_plain by assumption.
      rewrite after_comment_cut.
      rewrite strip_prefix_append, json_string_body_plain by assumption.
      rewrite after_createTime_cut.
      rewrite strip_prefix_append, json_string_body_plain by assumption.
      reflexivity.
    + repeat split; eexists; now apply json_string_body_plain.
  - intros a b E P. split.
    { eexists. unfold review_entry. split; [apply strip_prefix_append |].
      rewrite E. now apply quote_ends_value. }
    intros c t n rest.
    unfold read_entry, review_entry.
    rewrite strip_prefix_append, E, quote_ends_value by assumption.
    destruct (strip_prefix datePublished_opening _) as [t3 |];
      [| discriminate].
    destruct (json_string_body t3) as [[t' t4] |]; [| discriminate].
    destruct (strip_prefix author_opening t4) as [t5 |]; [| discriminate].
    destruct (json_string_body t5) as [[n' t6] |]; [| discriminate].
    intro R. now injection R as <- _ _ _.
  - intros a x b E P X.
    unfold read_entry, review_entry.
    rewrite strip_prefix_append, E, append_assoc.
    cbn [append].
    now rewrite control_breaks_value.
Qed.

(** C2 amended, for a review without special character and for the one
    whose comment reads [Great "pizza"]. *)
Lemma entry_is_verbatim_witness :
  read_entry (review_entry sample_host ada)
  = Some ("Lovely place", "2024-01-01T00:00:00Z", "Ada Lovelace",
          after_displayName sample_host ada)
  /\ forall c t n rest,
       read_entry (review_entry sample_host quoting) = Some (c, t, n, rest) ->
       c = "Great ".
Proof.
  split.
  - apply (proj1 (proj2 (entry_is_verbatim sample_host ada))); reflexivity.
  - apply (proj1 (proj2 (proj2 (entry_is_verbatim sample_host quoting)))
             "Great " ("pizza" ++ dq)); reflexivity.
Defined.

(** ** The flags over the life of an instance *)

Lemma update_cells (h : Host) (p : props.t) (i i' : Instance) :
  update h p i = Normal i' ->
  cells i' = cells i
  \/ (truthy (props.featurableId p) = false
      /\ cells i' = setLoading false (cells i)).
Proof.
  unfold update, ReactGoogleReviews.
  destruct (validate p); [discriminate |].
  rewrite use_states_stored.
  destruct (same_deps (deps i) (props.featurableId p)).
  - intro E. injection E as <-. now left.
  - unfold effect. destruct (truthy (props.featurableId p));
      intro E; injection E as <-; [now left | now right].
Qed.

Lemma settle_inv (k : nat) (o : fetch_outcome) (i i' : Instance) :
  settle k o i = Some i' ->
  cells i' = settle_cells o (cells i)
  /\ current_props i' = current_props i
  /\ requests i' = requests i
  /\ in_flight i' = remove_nth k (in_flight i).
Proof.
  unfold settle. destruct (nth_error (in_flight i) k); [| discriminate].
  intro E. injection E as <-. repeat split.
Qed.

Lemma settle_cells_error (o : fetch_outcome) (s : State) :
  error s = true -> error (settle_cells o s) = true.
Proof. destruct o as [| | [| R u n a]]; simpl; auto. Qed.

Lemma step_loading (h : Host) (i j : Instance) :
  step h i j -> loading (cells i) = false -> loading (cells j) = false.
Proof.
  intros [p i0 i1 U | k o i0 i1 S] L.
  - destruct (update_cells h p i0 i1 U) as [-> | [_ ->]];
      [assumption | reflexivity].
  - destruct (settle_inv k o i0 i1 S) as (-> & _). reflexivity.
Qed.

Lemma step_error (h : Host) (i j : Instance) :
  step h i j -> error (cells i) = true -> error (cells j) = true.
Proof.
  intros [p i0 i1 U | k o i0 i1 S] E.
  - destruct (update_cells h p i0 i1 U) as [-> | [_ ->]]; assumption.
  - destruct (settle_inv k o i0 i1 S) as (-> & _).
    now apply settle_cells_error.
Qed.

(** X1: nothing ever sets [loading] again.  Once an instance has left
    Loading, no later render, change of identifier or response brings the
    loading flag back: a fetch for a new identifier runs with the previous
    output still shown. *)
Theorem loading_never_returns (h : Host) (i j : Instance) :
  steps h i j ->
  loading (cells i) = false ->
  loading (cells j) = false.
Proof.
  induction 1 as [i | i j k _ IH S]; intro L.
  - assumption.
  - exact (step_loading h j k S (IH L)).
Qed.

(** X1, from the rejected fetch for [A] to the fetch for [B] being
    awaited. *)
Lemma loading_never_returns_witness :
  in_flight failed_A_then_B = [endpoint "B"]
  /\ loading (cells failed_A_then_B) = false.
Proof.
  split; [reflexivity |].
  apply (loading_never_returns sample_host failed_A failed_A_then_B).
  - apply (steps_next _ _ failed_A); [apply steps_refl |].
    apply (step_update _ (remote_carousel "B")). reflexivity.
  - reflexivity.
Defined.

(** X2: nothing ever clears [error].  An instance in the Error state stays
    in it through every later render and response, and shows the error
    placeholder whenever its props pass validation, also after a later
    fetch succeeded and stored its data. *)
Theorem failed_instance_stays_failed (h : Host) (i j : Instance) :
  steps h i j ->
  lifecycle (cells i) = Lifecycle.Error ->
  lifecycle (cells j) = Lifecycle.Error
  /\ (validate (current_props j) = None -> view h j = Normal ErrorState).
Proof.
  intros St L.
  assert (F : loading (cells i) = false /\ error (cells i) = true).
  { unfold lifecycle in L.
    destruct (loading (cells i)); [discriminate |].
    destruct (error (cells i)); [now split | discriminate]. }
  clear L.
  assert (G : loading (cells j) = false /\ error (cells j) = true).
  { induction St as [i | i j k _ IH S]; [assumption |].
    destruct (IH F) as [Lj Ej]. split.
    - exact (step_loading h j k S Lj).
    - exact (step_error h j k S Ej). }
  destruct G as [Lj Ej]. split.
  - unfold lifecycle. now rewrite Lj, Ej.
  - intro V. rewrite view_valid by assumption.
    unfold dispatch. now rewrite Lj, Ej.
Qed.

(** X2, from the rejected fetch for [A] to the successful one for [B]. *)
Lemma failed_instance_stays_failed_witness :
  reviews (cells failed_A_then_B_answered) = [ada]
  /\ lifecycle (cells failed_A_then_B_answered) = Lifecycle.Error
  /\ view sample_host failed_A_then_B_answered = Normal ErrorState.
Proof.
  split; [reflexivity |].
  assert (St : steps sample_host failed_A failed_A_then_B_answered).
  { apply (steps_next _ _ failed_A_then_B).
    - apply (steps_next _ _ failed_A); [apply steps_refl |].
      apply (step_update _ (remote_carousel "B")). reflexivity.
    - apply (step_settle _ 0%nat
               (parsed (data.ok [ada] (just "u") (just (num 1))
                                (just (num 5))))).
      reflexivity. }
  destruct (failed_instance_stays_failed sample_host failed_A
              failed_A_then_B_answered St eq_refl) as [L V].
  split; [exact L | exact (V eq_refl)].
Defined.

(** X3: props reach the resolved data on the first render only.  A later
    render, whatever [reviews], [profileUrl], [totalReviewCount] or
    [averageRating] its props carry, leaves the four resolved fields and
    the error flag as they are; with a non-empty identifier it leaves
    every cell as it is. *)
Theorem update_keeps_resolved_data (h : Host) (p : props.t)
    (i i' : Instance) :
  update h p i = Normal i' ->
  reviews (cells i') = reviews (cells i)
  /\ profileUrl (cells i') = profileUrl (cells i)
  /\ totalReviewCount (cells i') = totalReviewCount (cells i)
  /\ averageRating (cells i') = averageRating (cells i)
  /\ error (cells i') = error (cells i)
  /\ (remote_mode p -> cells i' = cells i).
Proof.
  intro U.
  destruct (update_cells h p i i' U) as [E | [T E]]; rewrite E;
    repeat split.
  unfold remote_mode. congruence.
Qed.

(** X3, for a supplied carousel re-rendered with other reviews and
    aggregates. *)
Lemma update_keeps_resolved_data_witness :
  mount sample_host supplied_carousel = Normal mounted_supplied
  /\ reviews (cells rerendered_supplied) = [ada; anon]
  /\ totalReviewCount (cells rerendered_supplied) = null
  /\ averageRating (cells rerendered_supplied) = null.
Proof.
  split; [reflexivity |].
  destruct (update_keeps_resolved_data sample_host
              (with_aggregates (Some (num 3)) (Some (num 2)) supplied_badge)
              mounted_supplied rerendered_supplied eq_refl)
    as (R & _ & N & A & _).
  split; [exact R | split; [exact N | exact A]].
Defined.

(** X4: an empty [featurableId] is falsy.  A configuration that carries
    one issues no request at all and mounts in the Ready state with no
    review: the placeholder for a failed acquisition is not shown. *)
Theorem empty_featurableId_mounts_ready (h : Host) (p : props.t) :
  props.featurableId p = Some EmptyString ->
  validate p = None ->
  exists i,
    mount h p = Normal i
    /\ requests i = []
    /\ in_flight i = []
    /\ lifecycle (cells i) = Lifecycle.Ready
    /\ reviews (cells i) = [].
Proof.
  intros F V. unfold mount, effect.
  rewrite component_returns by assumption. rewrite F. simpl.
  eexists. split; [reflexivity |]. repeat split.
  simpl. unfold props.reviews.
  unfold props.featurableId in F.
  destruct (props.src p); [discriminate | reflexivity].
Qed.

(** X4, for a carousel with the empty identifier. *)
Lemma empty_featurableId_mounts_ready_witness :
  exists i,
    mount sample_host (remote_carousel EmptyString) = Normal i
    /\ requests i = []
    /\ in_flight i = []
    /\ lifecycle (cells i) = Lifecycle.Ready
    /\ reviews (cells i) = [].
Proof.
  apply (empty_featurableId_mounts_ready sample_host
           (remote_carousel EmptyString)); reflexivity.
Defined.

(** ** The requests of an instance *)

Lemma incl_remove_nth {A : Type} (k : nat) (l : list A) :
  incl (remove_nth k l) l.
Proof.
  revert k. induction l as [| x l IH]; intros [| k]; simpl.
  - apply incl_refl.
  - apply incl_refl.
  - apply incl_tl, incl_refl.
  - intros y [-> | H]; [now left | right; exact (IH k y H)].
Qed.

(** The URL of the widget of a non-empty identifier. *)
Lemma effect_gets (p : props.t) (s : State) :
  Forall (fun url => exists c id,
            props.featurableId p = Some (String c id)
            /\ url = endpoint (String c id))
         (snd (effect p s)).
Proof.
  unfold effect.
  destruct (props.featurableId p) as [[| c id] |]; simpl; constructor.
  - now exists c, id.
  - constructor.
Qed.

Lemma mount_requests (h : Host) (p : props.t) (i : Instance) :
  mount h p = Normal i ->
  in_flight i = snd (effect p (use_states p None))
  /\ requests i = snd (effect p (use_states p None)).
Proof.
  unfold mount, ReactGoogleReviews.
  destruct (validate p); [discriminate |].
  destruct (effect p (use_states p None)) as [s gets].
  intro E. injection E as <-. split; reflexivity.
Qed.

Lemma update_requests (h : Host) (p : props.t) (i i' : Instance) :
  update h p i = Normal i' ->
  (in_flight i' = in_flight i /\ requests i' = requests i)
  \/ (in_flight i' = (in_flight i ++ snd (effect p (cells i)))%list
      /\ requests i' = (requests i ++ snd (effect p (cells i)))%list).
Proof.
  unfold update, ReactGoogleReviews.
  destruct (validate p); [discriminate |].
  rewrite use_states_stored.
  destruct (same_deps (deps i) (props.featurableId p)).
  - intro E. injection E as <-. now left.
  - destruct (effect p (cells i)) as [s gets].
    intro E. injection E as <-. now right.
Qed.

(** X5: every request an instance has ever issued is a GET of the widget
    endpoint for a non-empty identifier, and every response it awaits
    answers one of the requests it issued. *)
Theorem requests_are_widget_urls (h : Host) (i : Instance) :
  reachable h i ->
  Forall (fun url => exists c id, url = endpoint (String c id)) (requests i)
  /\ incl (in_flight i) (requests i).
Proof.
  assert (W : forall p s,
             Forall (fun url => exists c id, url = endpoint (String c id))
                    (snd (effect p s))).
  { intros p s. eapply Forall_impl; [| apply effect_gets].
    intros url (c & id & _ & ->). now exists c, id. }
  induction 1 as [p i M | p i i' _ [IHr IHf] U | k o i i' _ [IHr IHf] S].
  - destruct (mount_requests h p i M) as [-> ->].
    split; [apply W | apply incl_refl].
  - destruct (update_requests h p i i' U) as [[-> ->] | [-> ->]].
    + now split.
    + split.
      * apply Forall_app. split; [assumption | apply W].
      * apply incl_app_app; [assumption | apply incl_refl].
  - destruct (settle_inv k o i i' S) as (_ & _ & -> & ->).
    split; [assumption |].
    eapply incl_tran; [apply incl_remove_nth | assumption].
Qed.

(** X5, on the instance that awaits [A] and [B]. *)
Lemma requests_are_widget_urls_witness :
  Forall (fun url => exists c id, url = endpoint (String c id))
         (requests awaiting_A_and_B)
  /\ incl (in_flight awaiting_A_and_B) (requests awaiting_A_and_B).
Proof.
  apply (requests_are_widget_urls sample_host awaiting_A_and_B).
  apply (reach_update _ (remote_carousel "B") mounted_A).
  - apply (reach_mount _ (remote_carousel "A")). reflexivity.
  - reflexivity.
Defined.

(** ** What the layouts receive *)

(** X6: the badge is never rendered with a [null] aggregate.  Whenever the
    dispatch puts a badge in the container, the rating, the count and the
    profile URL it passes are those of the cells, and neither the rating
    nor the count is [null].  They can still be [undefined]: the guard
    tests for [null] only. *)
Theorem badge_aggregates_are_not_null (h : Host) (p : props.t) (s : State)
    (sd c k : ReactNode) (b : BadgeProps) :
  dispatch h p s = div [sd; c; Badge b; k] ->
  averageRating s <> null
  /\ totalReviewCount s <> null
  /\ badge_averageRating b = averageRating s
  /\ badge_totalReviewCount b = totalReviewCount s
  /\ badge_profileUrl b = profileUrl s.
Proof.
  unfold dispatch.
  destruct (loading s); [discriminate |].
  destruct (error s); [discriminate |]. simpl.
  unfold badge_block.
  destruct (Layout_eqb (props.layout p) badge); simpl;
    [| intro E; discriminate E].
  destruct (is_null (averageRating s)) eqn:A; [discriminate |].
  destruct (is_null (totalReviewCount s)) eqn:N; [discriminate |]. simpl.
  intro E. injection E as _ _ <- _.
  repeat split.
  - intro H. apply is_null_true in H. congruence.
  - intro H. apply is_null_true in H. congruence.
Qed.

(** X6, for the badge that received a body without rating. *)
Lemma badge_aggregates_are_not_null_witness :
  averageRating (cells badge_A_without_rating) <> null
  /\ totalReviewCount (cells badge_A_without_rating) <> null.
Proof.
  destruct (badge_aggregates_are_not_null sample_host (remote_badge "A")
              (cells badge_A_without_rating) _ _ _ _ eq_refl)
    as (A & N & _).
  split; [exact A | exact N].
Defined.

(** X7: in supplied mode the layout receives what was supplied.  Once
    mounted, a custom layout shows its renderer applied to exactly the
    supplied reviews and a carousel receives them as its [reviews] prop; a
    badge receives the supplied rating, count and profile URL, and is
    replaced by the error placeholder when the rating or the count was not
    supplied. *)
Theorem supplied_layout_gets_reviews (h : Host) (p : props.t)
    (R : list GoogleReview) :
  supplied_mode p R ->
  validate p = None ->
  exists i,
    mount h p = Normal i
    /\ match props.var p with
       | props.custom_props renderer =>
           view h i
           = Normal (div [structured_data_block h p (cells i);
                          nothing; nothing; renderer R])
       | props.carousel_props _ _ _ =>
           exists c,
             view h i
             = Normal (div [structured_data_block h p (cells i);
                            Carousel c; nothing; nothing])
             /\ carousel_reviews c = R
       | props.badge_props u =>
           match props.averageRating p, props.totalReviewCount p with
           | Some a, Some n =>
               view h i
               = Normal (div [structured_data_block h p (cells i); nothing;
                              Badge {| badge_averageRating := just a;
                                       badge_totalReviewCount := just n;
                                       badge_profileUrl := or_null u;
                                       badge_theme := props.theme p |};
                              nothing])
           | _, _ => view h i = Normal ErrorState
           end
       end.
Proof.
  intros S V. eexists. split; [exact (mount_supplied h p R S V) |].
  destruct (props.var p) as [sp au mi | u | renderer] eqn:Ev.
  - rewrite view_valid by assumption. cbn [current_props cells].
    set (s := setLoading false (use_states p None)).
    assert (Rs : reviews s = R).
    { unfold supplied_mode in S. subst s. simpl. unfold props.reviews.
      now rewrite S. }
    unfold dispatch, carousel_block, badge_block, custom_block, props.layout.
    change (loading s) with false. change (error s) with false.
    rewrite Rs, Ev. simpl. eexists. split; reflexivity.
  - destruct (props.averageRating p) as [a |] eqn:Ea;
      [destruct (props.totalReviewCount p) as [n |] eqn:En |];
      rewrite view_valid by assumption; cbn [current_props cells];
      unfold dispatch, carousel_block, badge_block, custom_block,
        props.layout;
      simpl; unfold props.layout, props.profileUrl;
      rewrite Ev, Ea; simpl; try rewrite En; simpl; reflexivity.
  - rewrite view_valid by assumption. cbn [current_props cells].
    set (s := setLoading false (use_states p None)).
    assert (Rs : reviews s = R).
    { unfold supplied_mode in S. subst s. simpl. unfold props.reviews.
      now rewrite S. }
    unfold dispatch, carousel_block, badge_block, custom_block, props.layout.
    change (loading s) with false. change (error s) with false.
    rewrite Rs, Ev. reflexivity.
Qed.

(** X7, for the custom layout that prints comments. *)
Lemma supplied_layout_gets_reviews_witness :
  exists i,
    mount sample_host supplied_custom = Normal i
    /\ view sample_host i
       = Normal (div [structured_data_block sample_host supplied_custom
                                            (cells i);
                      nothing; nothing; foreign "Lovely place, Fine"]).
Proof.
  destruct (supplied_layout_gets_reviews sample_host supplied_custom
              [ada; anon] eq_refl eq_refl) as (i & M & V).
  exists i. split; [exact M | exact V].
Defined.

(** ** The text of the document *)

(** X8: the entry of a review does not tell where its comment ends.  A
    review whose comment goes on with a quote, the text that opens the
    publish time and some text [x] has the same entry as the review whose
    comment stops before that quote and whose publish time starts with
    [x]: a comment can pass for the fields that follow it. *)
Theorem entries_confusable (h : Host) (who : Reviewer)
    (c x t : string) (stars : number) :
  review_entry h (mkReview who (c ++ dq ++ datePublished_opening ++ x)
                           t stars)
  = review_entry h (mkReview who c
                             (x ++ dq ++ datePublished_opening ++ t) stars)
  /\ c ++ dq ++ datePublished_opening ++ x <> c.
Proof.
  split.
  - unfold review_entry. rewrite !after_comment_cut.
    cbn [comment createTime]. f_equal.
    rewrite !append_assoc. reflexivity.
  - intro E. apply (f_equal String.length) in E.
    rewrite !length_append in E. simpl in E. lia.
Qed.

(** X9: on values without quote and backslash the entry is faithful.  Two
    reviews whose comments, publish times and display names hold neither
    character and whose entries are the same text have the same comment,
    the same publish time, the same display name and the same printed
    rating. *)
Theorem plain_entry_determines_values (h : Host) (r1 r2 : GoogleReview) :
  no_quote_no_backslash (comment r1) = true ->
  no_quote_no_backslash (comment r2) = true ->
  no_quote_no_backslash (createTime r1) = true ->
  no_quote_no_backslash (createTime r2) = true ->
  no_quote_no_backslash (displayName (reviewer r1)) = true ->
  no_quote_no_backslash (displayName (reviewer r2)) = true ->
  review_entry h r1 = review_entry h r2 ->
  comment r1 = comment r2
  /\ createTime r1 = createTime r2
  /\ displayName (reviewer r1) = displayName (reviewer r2)
  /\ number_to_string h (starRating r1) = number_to_string h (starRating r2).
Proof.
  intros Pc1 Pc2 Pt1 Pt2 Pn1 Pn2 E.
  unfold review_entry in E. apply append_cancel_l in E.
  apply (f_equal split_at_quote) in E.
  rewrite !split_at_quote_unquoted in E by assumption.
  apply some_pair_inj in E as [Ec E]. split; [exact Ec |].
  rewrite !after_comment_cut in E. apply append_cancel_l in E.
  apply (f_equal split_at_quote) in E.
  rewrite !split_at_quote_unquoted in E by assumption.
  apply some_pair_inj in E as [Et E]. split; [exact Et |].
  rewrite !after_createTime_cut in E. apply append_cancel_l in E.
  apply (f_equal split_at_quote) in E.
  rewrite !split_at_quote_unquoted in E by assumption.
  apply some_pair_inj in E as [En E]. split; [exact En |].
  rewrite !after_displayName_cut in E. apply append_cancel_l in E.
  now apply append_cancel_r in E.
Qed.

(** X9, for two reviews that differ in the anonymity flag only. *)
Lemma plain_entry_determines_values_witness :
  comment ada
  = comment (mkReview (mkReviewer "Ada Lovelace" true) "Lovely place"
                      "2024-01-01T00:00:00Z" (num 5)).
Proof.
  refine (proj1 (plain_entry_determines_values sample_host ada
                   (mkReview (mkReviewer "Ada Lovelace" true) "Lovely place"
                             "2024-01-01T00:00:00Z" (num 5))
                   _ _ _ _ _ _ _)); reflexivity.
Defined.

(** X10: the outer template puts the product name, the page URL, the brand
    name and the description in as they are, whatever they hold; an absent
    product or brand name is the page title, an absent description the
    empty text.  When the four values hold no double quote, no backslash
    and no control character, a JSON reader gets them back from the
    document; a product name that holds a double quote after such a text
    is read back as that text only. *)
Theorem document_values_round_trip (h : Host) (p : props.t)
    (a n : maybe number) (rs : list GoogleReview) :
  structured_data h p a n rs
  = doc_before_name ++ nullish (props.productName p) (document_title h)
      ++ dq ++ url_opening ++ document_location_href h
      ++ dq ++ brand_opening
      ++ nullish (props.brandName p) (document_title h)
      ++ dq ++ description_opening
      ++ nullish (props.productDescription p) EmptyString
      ++ dq ++ doc_after_description h a n rs
  /\ (plain (nullish (props.productName p) (document_title h)) = true ->
      plain (document_location_href h) = true ->
      plain (nullish (props.brandName p) (document_title h)) = true ->
      plain (nullish (props.productDescription p) EmptyString) = true ->
      read_document (structured_data h p a n rs)
      = Some (nullish (props.productName p) (document_title h),
              document_location_href h,
              nullish (props.brandName p) (document_title h),
              nullish (props.productDescription p) EmptyString,
              doc_after_description h a n rs))
  /\ (forall x y : string,
        nullish (props.productName p) (document_title h) = x ++ dq ++ y ->
        plain x = true ->
        (exists t1,
           strip_prefix doc_before_name (structured_data h p a n rs)
           = Some t1
           /\ json_string_body t1
              = Some (x, y ++ dq ++ doc_after_name h p a n rs))
        /\ forall name url brand description rest,
             read_document (structured_data h p a n rs)
             = Some (name, url, brand, description, rest) ->
             name = x).
Proof.
  split; [reflexivity |]. split.
  - intros Pn Pu Pb Pd.
    unfold read_document. rewrite structured_data_cut.
    rewrite strip_prefix_append, json_string_body_plain by assumption.
    change (doc_after_name h p a n rs)
      with (url_opening ++ document_location_href h ++ dq
              ++ doc_after_url h p a n rs).
    rewrite strip_prefix_append, json_string_body_plain by assumption.
    change (doc_after_url h p a n rs)
      with (brand_opening ++ nullish (props.brandName p) (document_title h)
              ++ dq ++ doc_after_brand h p a n rs).
    rewrite strip_prefix_append, json_string_body_plain by assumption.
    change (doc_after_brand h p a n rs)
      with (description_opening
              ++ nullish (props.productDescription p) EmptyString
              ++ dq ++ doc_after_description h a n rs).
    rewrite strip_prefix_append, json_string_body_plain by assumption.
    reflexivity.
  - intros x y E P. split.
    { eexists. rewrite structured_data_cut.
      split; [apply strip_prefix_append |].
      rewrite E. now apply quote_ends_value. }
    intros name url brand description rest.
    unfold read_document. rewrite structured_data_cut.
    rewrite strip_prefix_append, E, quote_ends_value by assumption.
    destruct (strip_prefix url_opening _) as [t3 |]; [| discriminate].
    destruct (json_string_body t3) as [[u t4] |]; [| discriminate].
    destruct (strip_prefix brand_opening t4) as [t5 |]; [| discriminate].
    destruct (json_string_body t5) as [[b t6] |]; [| discriminate].
    destruct (strip_prefix description_opening t6) as [t7 |];
      [| discriminate].
    destruct (json_string_body t7) as [[d t8] |]; [| discriminate].
    intro R. now injection R as <- _ _ _ _.
Qed.

(** X10, for a configuration without names on the sample page. *)
Lemma document_values_round_trip_witness :
  read_document
    (structured_data sample_host supplied_carousel (just (num 4))
                     (just (num 12)) [anon])
  = Some ("Trattoria", "https://example.org/", "Trattoria", EmptyString,
          doc_after_description sample_host (just (num 4)) (just (num 12))
                                [anon]).
Proof.
  exact (proj1 (proj2 (document_values_round_trip sample_host
                         supplied_carousel (just (num 4)) (just (num 12))
                         [anon]))
               eq_refl eq_refl eq_refl eq_refl).
Defined.

(** X11: the document looks at the reviews up to the tenth it lists.  Once
    the resolved sequence holds ten reviews that pass the filter, whatever
    follows them changes neither the listed reviews nor the document. *)
Theorem reviews_after_the_tenth_are_ignored (h : Host) (p : props.t)
    (a n : maybe number) (rs extra : list GoogleReview) :
  (10 <= List.length (filter (fun r => isAnonymous (reviewer r)) rs))%nat ->
  listed_reviews (rs ++ extra) = listed_reviews rs
  /\ structured_data h p a n (rs ++ extra) = structured_data h p a n rs.
Proof.
  intro L.
  assert (E : listed_reviews (rs ++ extra) = listed_reviews rs).
  { unfold listed_reviews.
    rewrite filter_app, firstn_app.
    rewrite (filter_ext (fun r => negb (negb (isAnonymous (reviewer r))))
                        (fun r => isAnonymous (reviewer r))
                        (fun r => negb_involutive _) rs).
    replace (10 - List.length
                    (filter (fun r => isAnonymous (reviewer r)) rs))%nat
      with 0%nat by lia.
    simpl. apply app_nil_r. }
  split; [exact E |].
  unfold structured_data, review_list. now rewrite E.
Qed.

(** X11, for ten anonymous reviews followed by one more. *)
Lemma reviews_after_the_tenth_are_ignored_witness :
  listed_reviews (repeat anon 10 ++ [quoting]) = repeat anon 10.
Proof.
  refine (eq_trans
            (proj1 (reviews_after_the_tenth_are_ignored sample_host
                      supplied_carousel (just (num 4)) (just (num 12))
                      (repeat anon 10) [quoting] _))
            eq_refl).
  simpl. lia.
Defined.

(** ** When the document is emitted *)

(** X12: the script with the document is in the output exactly when the
    cells are neither loading nor in error, [structuredData] is [true] and
    neither aggregate is [null]; its text is then the template over the
    aggregates and the reviews of the cells.  With [structuredData] set but
    an aggregate [null], a carousel or a custom layout is rendered without
    any script. *)
Theorem script_emitted_iff (h : Host) (p : props.t) (s : State) :
  ((exists body rest, dispatch h p s = div (script_ld_json body :: rest))
   <-> loading s = false
       /\ error s = false
       /\ props.structuredData p = Some true
       /\ averageRating s <> null
       /\ totalReviewCount s <> null)
  /\ (forall body rest,
        dispatch h p s = div (script_ld_json body :: rest) ->
        body = structured_data h p (averageRating s) (totalReviewCount s)
                               (reviews s)).
Proof.
  unfold dispatch, structured_data_block.
  destruct (loading s); simpl.
  { split; [split |].
    - intros (body & rest & E). discriminate E.
    - intros (E & _). discriminate E.
    - intros body rest E. discriminate E. }
  destruct (error s); simpl.
  { split; [split |].
    - intros (body & rest & E). discriminate E.
    - intros (_ & E & _). discriminate E.
    - intros body rest E. discriminate E. }
  destruct (is_null (averageRating s)) eqn:A;
    destruct (is_null (totalReviewCount s)) eqn:N;
    simpl; rewrite ?andb_false_r, ?andb_true_r;
    destruct (props.structuredData p) as [[|] |];
    destruct (Layout_eqb (props.layout p) badge); simpl;
    (split; [split |]);
    try (intros (body & rest & E); discriminate E);
    try (intros body rest E; discriminate E);
    try (intros (_ & _ & E & _); discriminate E);
    try (intros (_ & _ & _ & Ha & Hn);
         apply is_null_true in A || apply is_null_true in N;
         congruence);
    try (intros _; eexists; eexists; reflexivity);
    try (intros body rest E; injection E as <- _; reflexivity).
  - intros _. repeat split; intro H; apply is_null_true in H; congruence.
  - intros _. repeat split; intro H; apply is_null_true in H; congruence.
Qed.

(** X12, for a carousel that asks for structured data without supplying
    the aggregates. *)
Lemma script_emitted_iff_witness :
  ~ exists body rest,
      dispatch sample_host
               (props.mk (props.with_reviews [anon])
                         (props.carousel_props None None None)
                         None None None None None None (Some true)
                         None None None None None None)
               (ready_cells [anon])
      = div (script_ld_json body :: rest).
Proof.
  intro E.
  apply (proj1 (script_emitted_iff sample_host _ _)) in E.
  destruct E as (_ & _ & _ & A & _). now apply A.
Defined.

(** X13: in remote mode the layout receives what the response carried.
    After the success body arrives at a freshly mounted instance, a
    carousel receives the reviews of the body, a custom renderer is applied
    to them, and a badge receives the rating, the count and the profile URL
    of the body, not those of the props; with [structuredData] set the
    document is emitted over the values of the body. *)
Theorem remote_layout_gets_response (h : Host) (p : props.t) (i : Instance)
    (R : list GoogleReview) (u : string) (n a : number) :
  remote_mode p ->
  mount h p = Normal i ->
  exists i',
    settle 0 (parsed (data.ok R (just u) (just n) (just a))) i = Some i'
    /\ match props.var p with
       | props.carousel_props _ _ _ =>
           exists c,
             view h i'
             = Normal (div [structured_data_block h p (cells i');
                            Carousel c; nothing; nothing])
             /\ carousel_reviews c = R
       | props.badge_props _ =>
           view h i'
           = Normal (div [structured_data_block h p (cells i'); nothing;
                          Badge {| badge_averageRating := just a;
                                   badge_totalReviewCount := just n;
                                   badge_profileUrl := just u;
                                   badge_theme := props.theme p |};
                          nothing])
       | props.custom_props renderer =>
           view h i'
           = Normal (div [structured_data_block h p (cells i');
                          nothing; nothing; renderer R])
       end
    /\ (props.structuredData p = Some true ->
        structured_data_block h p (cells i')
        = script_ld_json (structured_data h p (just a) (just n) R)).
Proof.
  intros M E.
  destruct (mount_remote h p i M E) as (id & F & V & ->).
  eexists. split; [reflexivity |]. split.
  - rewrite view_valid by assumption. cbn [current_props cells].
    unfold dispatch, carousel_block, badge_block, custom_block, props.layout.
    simpl.
    destruct (props.var p); simpl.
    + eexists. split; reflexivity.
    + reflexivity.
    + reflexivity.
  - intro S. unfold structured_data_block. rewrite S. reflexivity.
Qed.

(** X13, for the carousel mounted with [A] and a body of one review. *)
Lemma remote_layout_gets_response_witness :
  exists i',
    settle 0 (parsed (data.ok [ada] (just "u") (just (num 12))
                              (just (Finite (9 # 2))))) mounted_A
    = Some i'
    /\ reviews (cells i') = [ada].
Proof.
  destruct (remote_layout_gets_response sample_host (remote_carousel "A")
              mounted_A [ada] "u" (num 12) (Finite (9 # 2))
              eq_refl eq_refl) as (i' & S & _).
  exists i'. split; [exact S |].
  injection S as <-. reflexivity.
Defined.

(** ** Which guard speaks *)

(** X14: the guard on the review count runs first.  A supplied count that
    is negative or not an integer gives the message about the count
    whatever the rating is; the message about the rating is given only when
    the count is absent or a non-negative integer; and the bounds
    themselves pass: a count of zero or more with a rating from 1 to 5, both
    ends included, is accepted. *)
Theorem validation_order (p : props.t) :
  (forall n,
     props.totalReviewCount p = Some n ->
     negative n \/ ~ is_integer n ->
     validate p = Some (mkError "totalReviewCount must be a positive integer"))
  /\ (forall r,
        props.averageRating p = Some r ->
        below_1_or_above_5 r ->
        props.totalReviewCount p = None
        \/ (exists n, props.totalReviewCount p = Some n
                      /\ ~ negative n /\ is_integer n) ->
        validate p = Some (mkError "averageRating must be between 1 and 5"))
  /\ (forall (z : Z) (q : Q),
        props.totalReviewCount p = Some (num z) ->
        props.averageRating p = Some (Finite q) ->
        (0 <= z)%Z ->
        (1 <= q)%Q -> (q <= 5)%Q ->
        validate p = None).
Proof.
  unfold validate. split; [| split].
  - intros n -> H.
    assert (B : number_lt n (num 0) || negb (Number_isInteger n) = true).
    { apply orb_true_iff. destruct H as [H | H].
      - left. now apply number_lt_0_iff.
      - right. apply negb_true_iff.
        destruct (Number_isInteger n) eqn:I; [| reflexivity].
        exfalso. apply H. now apply Number_isInteger_iff. }
    now rewrite B.
  - intros r -> O C.
    assert (B : match props.totalReviewCount p with
                | Some n => number_lt n (num 0) || negb (Number_isInteger n)
                | None => false
                end = false).
    { destruct C as [-> | (n & -> & N & I)]; [reflexivity |].
      apply orb_false_iff. split.
      - destruct (number_lt n (num 0)) eqn:L; [| reflexivity].
        exfalso. apply N. now apply number_lt_0_iff.
      - apply negb_false_iff. now apply Number_isInteger_iff. }
    rewrite B. apply below_1_or_above_5_iff in O. now rewrite O.
  - intros z q -> -> Z0 Q1 Q5.
    assert (B : number_lt (num z) (num 0)
                || negb (Number_isInteger (num z)) = false).
    { apply orb_false_iff. split.
      - destruct (number_lt (num z) (num 0)) eqn:L; [| reflexivity].
        apply number_lt_0_iff in L. simpl in L.
        unfold Qlt in L. simpl in L. lia.
      - apply negb_false_iff. apply Number_isInteger_iff.
        simpl. exists z. reflexivity. }
    rewrite B.
    assert (O : number_lt (Finite q) (num 1) || number_gt (Finite q) (num 5)
                = false).
    { destruct (number_lt (Finite q) (num 1) || number_gt (Finite q) (num 5))
        eqn:O; [| reflexivity].
      apply below_1_or_above_5_iff in O. simpl in O.
      destruct O as [O | O].
      - exfalso. apply (Qlt_not_le _ _ O). exact Q1.
      - exfalso. apply (Qlt_not_le _ _ O). exact Q5. }
    now rewrite O.
Qed.

(** X14, for a count of -1 together with a rating of 9, and for a count of
    zero with a rating of 5. *)
Lemma validation_order_witness :
  validate (with_aggregates (Some (num (-1))) (Some (num 9))
                            supplied_carousel)
  = Some (mkError "totalReviewCount must be a positive integer")
  /\ validate (with_aggregates (Some (num 0)) (Some (num 5))
                               supplied_carousel)
     = None.
Proof.
  split.
  - apply (proj1 (validation_order
                    (with_aggregates (Some (num (-1))) (Some (num 9))
                                     supplied_carousel))
                 (num (-1)) eq_refl).
    left. reflexivity.
  - apply (proj2 (proj2 (validation_order
                           (with_aggregates (Some (num 0)) (Some (num 5))
                                            supplied_carousel)))
                 0%Z (inject_Z 5) eq_refl eq_refl).
    + lia.
    + discriminate.
    + discriminate.
Defined.
